(** * Verdict scoring engine: a shallow embedding of [score.py]

    The development follows the layout of the script: text helpers of the
    Python runtime, the transcript / rubric / configuration loaders, the
    seven dimension analyzers, composite and grade, narrative generation
    and the scorecard builder.

    Conventions.
    - Python [float] values are modelled by exact rationals ([Q]); results
      are compared with [==].  Integers are [Z] or [nat].
    - Text is modelled by [string] over 7-bit characters.
    - A [dict] whose iteration order is observable is an association list
      with unique keys in insertion order; a [dict] used as a plain map is a
      [gmap].
    - Library services that the script does not define itself (the regular
      expression engine, the JSON codec, float formatting) are fields of
      the class [Runtime].  The theorems about the engine hold for every
      runtime; the closed examples run the model with [example_runtime]. *)

From Stdlib Require Import ZArith QArith Qround Qminmax String Ascii List Lia Lqa Bool.
From stdpp Require Import base option list strings gmap pretty.
From stdpp Require Import sorting.
Import ListNotations.

Local Open Scope Z_scope.

(** ** Text helpers of the Python runtime *)

Module PyStr.

(** [str.isspace] on the 7-bit range: TAB, LF, VT, FF, CR, FS, GS, RS, US
    and the space. *)
Definition is_space (c : ascii) : bool :=
  match c with
  | "009" | "010" | "011" | "012" | "013"
  | "028" | "029" | "030" | "031" | " " => true
  | _ => false
  end%char.

Fixpoint lstrip (s : string) : string :=
  match s with
  | EmptyString => EmptyString
  | String c s' => if is_space c then lstrip s' else s
  end.

Fixpoint rstrip (s : string) : string :=
  match s with
  | EmptyString => EmptyString
  | String c s' =>
      match rstrip s' with
      | EmptyString => if is_space c then EmptyString else String c EmptyString
      | r => String c r
      end
  end.

(** [s.strip()] *)
Definition strip (s : string) : string := lstrip (rstrip s).

Definition starts_with_space (s : string) : bool :=
  match s with
  | EmptyString => false
  | String c _ => is_space c
  end.

Fixpoint ends_with_space (s : string) : bool :=
  match s with
  | EmptyString => false
  | String c EmptyString => is_space c
  | String _ s' => ends_with_space s'
  end.

(** A string is trimmed when it has no leading and no trailing
    whitespace. *)
Definition trimmed (s : string) : Prop :=
  starts_with_space s = false ∧ ends_with_space s = false.

(** Line boundaries of [str.splitlines] on the 7-bit range:
    LF, CR, CR LF, VT, FF, FS, GS, RS. *)
Definition is_linebreak (c : ascii) : bool :=
  match c with
  | "010" | "011" | "012" | "013" | "028" | "029" | "030" => true
  | _ => false
  end%char.

(** [cur] holds the characters of the line being read, last one first. *)
Fixpoint splitlines_go (cur : string) (s : string) : list string :=
  match s with
  | EmptyString =>
      match cur with
      | EmptyString => []
      | _ => [String.rev cur]
      end
  | String "013" (String "010" s') => String.rev cur :: splitlines_go "" s'
  | String c s' =>
      if is_linebreak c then String.rev cur :: splitlines_go "" s'
      else splitlines_go (String c cur) s'
  end.

(** [s.splitlines()] *)
Definition splitlines (s : string) : list string := splitlines_go "" s.

(** [s.split(sep)] for a one-character separator. *)
Fixpoint split (sep : ascii) (s : string) : list string :=
  match s with
  | EmptyString => [EmptyString]
  | String c s' =>
      if decide (c = sep) then EmptyString :: split sep s'
      else match split sep s' with
           | h :: t => String c h :: t
           | [] => [String c EmptyString]
           end
  end.

(** [sep.join(l)] *)
Fixpoint join (sep : string) (l : list string) : string :=
  match l with
  | [] => ""
  | [x] => x
  | x :: l' => x +:+ sep +:+ join sep l'
  end.

(** [s.startswith(p)] *)
Definition startswith (p s : string) : bool := String.prefix p s.

(** [s.endswith(p)] *)
Definition endswith (p s : string) : bool :=
  String.prefix (String.rev p) (String.rev s).

(** [s.count(sub)] for a non-empty [sub]: occurrences that do not
    overlap, scanning from the left.  [skip] counts the characters of the
    last occurrence still to be passed. *)
Fixpoint count_go (sub : string) (skip : nat) (s : string) : nat :=
  match s with
  | EmptyString => 0
  | String _ s' =>
      match skip with
      | S k => count_go sub k s'
      | O =>
          if String.prefix sub s
          then S (count_go sub (Nat.pred (String.length sub)) s')
          else count_go sub 0 s'
      end
  end.

Definition count (sub s : string) : nat := count_go sub 0 s.

(** [s.replace(a, b)] for a one-character [a]. *)
Fixpoint replace (a : ascii) (b : string) (s : string) : string :=
  match s with
  | EmptyString => EmptyString
  | String c s' =>
      if decide (c = a) then b +:+ replace a b s' else String c (replace a b s')
  end.

Definition is_upper (c : ascii) : bool :=
  let n := nat_of_ascii c in (65 <=? n)%nat && (n <=? 90)%nat.
Definition is_lower (c : ascii) : bool :=
  let n := nat_of_ascii c in (97 <=? n)%nat && (n <=? 122)%nat.
Definition to_upper (c : ascii) : ascii :=
  if is_lower c then ascii_of_nat (nat_of_ascii c - 32) else c.
Definition to_lower (c : ascii) : ascii :=
  if is_upper c then ascii_of_nat (nat_of_ascii c + 32) else c.

Fixpoint title_go (prev_cased : bool) (s : string) : string :=
  match s with
  | EmptyString => EmptyString
  | String c s' =>
      let cased := is_upper c || is_lower c in
      String (if prev_cased then to_lower c else to_upper c)
             (title_go cased s')
  end.

(** [s.title()] *)
Definition title (s : string) : string := title_go false s.

(** [s.lower()] *)
Fixpoint lower (s : string) : string :=
  match s with
  | EmptyString => EmptyString
  | String c s' => String (to_lower c) (lower s')
  end.

(** [str(n)] for an integer. *)
Definition of_Z (n : Z) : string := pretty n.
Definition of_nat (n : nat) : string := pretty n.

End PyStr.

(** ** Dictionaries with insertion order *)

Module Dict.
Section ops.
Context {V : Type}.

(** [d.get(k)] *)
Fixpoint get (k : string) (d : list (string * V)) : option V :=
  match d with
  | [] => None
  | (k', v) :: d' => if decide (k' = k) then Some v else get k d'
  end.

(** [d[k] = v]: an existing key keeps its position, a new key goes
    last. *)
Fixpoint set (k : string) (v : V) (d : list (string * V)) : list (string * V) :=
  match d with
  | [] => [(k, v)]
  | (k', v') :: d' =>
      if decide (k' = k) then (k, v) :: d' else (k', v') :: set k v d'
  end.

Definition keys (d : list (string * V)) : list string := map fst d.
End ops.
End Dict.

(** ** Values decoded from JSON *)

#[warnings="-register-all"] Inductive json : Type :=
| JNull
| JBool (b : bool)
| JInt (n : Z)
| JFloat (q : Q)
| JStr (s : string)
| JArr (items : list json)
| JObj (fields : list (string * json)).

(** Result of [json.loads]. *)
Inductive decoded : Type :=
| Decoded (v : json)
| DecodeError (msg : string).

(** A persisted scorecard as the engine reads it back: the two fields that
    [load_history] and the consistency analyzer look at, with the types the
    engine writes them with (a timestamp string, a composite number).  A
    field is [None] when the dictionary has no such key. *)
Record history_record : Type := {
  h_timestamp : option string;
  h_composite_score : option Q;
}.

(** ** Services of the Python runtime *)

(** A compiled regular expression: its source text and whether
    [re.IGNORECASE] is set. *)
Record pattern : Type := {
  pat_source : string;
  pat_ignorecase : bool;
}.

Class Runtime : Type := {
  (** [len(p.findall(s))] *)
  re_findall_len : pattern → string → nat;
  (** [re.search(p, s)] found a match *)
  re_search : pattern → string → bool;
  (** [re.match(p, s)]: the text of group 1 when the match succeeds *)
  re_match_group1 : pattern → string → option string;
  (** [json.loads(s)] *)
  json_loads : string → decoded;
  (** [json.loads(s)] on a score file, [None] for [JSONDecodeError] *)
  history_loads : string → option history_record;
  (** [json.dumps(v, indent=2, ensure_ascii=False)] *)
  json_dumps : json → string;
  (** [float(s)] for a string, [None] for [ValueError] *)
  float_of_str : string → option Q;
  (** [f"{x:.2f}"] *)
  format_2f : Q → string;
  (** [f"{v ** 0.5:.2f}"] *)
  format_root_2f : Q → string;
  (** [str(v)] for a float, a list or a dictionary *)
  py_repr : json → string;
}.

(** ** Outcomes, the file system and the diagnostic stream *)

Inductive exn : Type :=
| AttributeError
| TypeError
| ValueError
| KeyError
| FileNotFoundError
| IsADirectoryError
| NotADirectoryError
| FileExistsError.

Inductive outcome (A : Type) : Type :=
| Ok (a : A)
| Exit (code : Z)
| Raise (e : exn).
Arguments Ok {A} a.
Arguments Exit {A} code.
Arguments Raise {A} e.

(** [files] maps the path of a regular file to its text, [dirs] maps the
    path of a directory to the names [iterdir] yields, in the order it yields
    them; [stderr] collects the lines printed to the diagnostic stream;
    [clock] is the current UTC time as [strftime("%Y-%m-%dT%H:%M:%SZ")]
    prints it and [clock_iso] the same instant as [isoformat()] prints it. *)
Record world : Type := {
  files : gmap string string;
  dirs : gmap string (list string);
  stderr : list string;
  clock : string;
  clock_iso : string;
}.

Definition set_files (f : gmap string string → gmap string string) (w : world) : world :=
  {| files := f (files w); dirs := dirs w; stderr := stderr w;
     clock := clock w; clock_iso := clock_iso w |}.

Definition set_dirs (f : gmap string (list string) → gmap string (list string))
    (w : world) : world :=
  {| files := files w; dirs := f (dirs w); stderr := stderr w;
     clock := clock w; clock_iso := clock_iso w |}.

Definition set_stderr (f : list string → list string) (w : world) : world :=
  {| files := files w; dirs := dirs w; stderr := f (stderr w);
     clock := clock w; clock_iso := clock_iso w |}.

Definition M (A : Type) : Type := world → outcome A * world.

Definition ret {A} (a : A) : M A := λ w, (Ok a, w).

Definition bind {A B} (m : M A) (k : A → M B) : M B :=
  λ w, match m w with
       | (Ok a, w') => k a w'
       | (Exit c, w') => (Exit c, w')
       | (Raise e, w') => (Raise e, w')
       end.

Notation "'do' x <- m ; k" := (bind m (λ x, k))
  (at level 10, x name, m at level 100, k at level 200).
Notation "'do' ' pat <- m ; k" := (bind m (λ x, match x with pat => k end))
  (at level 10, pat pattern, m at level 100, k at level 200).
Notation "m ;; k" := (bind m (λ _, k))
  (at level 100, k at level 200, right associativity).

Definition raise {A} (e : exn) : M A := λ w, (Raise e, w).

(** [sys.exit(code)] *)
Definition sys_exit {A} (code : Z) : M A := λ w, (Exit code, w).

(** [print(msg, file=sys.stderr)] *)
Definition print_err (msg : string) : M unit :=
  λ w, (Ok (), set_stderr (λ err, err ++ [msg]) w).

(** [Path(dir) / name] for a relative [name]. *)
Definition path_join (dir name : string) : string := dir +:+ "/" +:+ name.

Definition is_file (p : string) : M bool :=
  λ w, (Ok (bool_decide (is_Some (files w !! p))), w).

Definition is_dir (p : string) : M bool :=
  λ w, (Ok (bool_decide (is_Some (dirs w !! p))), w).

Definition path_exists (p : string) : M bool :=
  λ w, (Ok (bool_decide (is_Some (files w !! p)) || bool_decide (is_Some (dirs w !! p))), w).

(** [p.read_text(encoding="utf-8")] *)
Definition read_text (p : string) : M string :=
  λ w, match files w !! p with
       | Some text => (Ok text, w)
       | None =>
           match dirs w !! p with
           | Some _ => (Raise IsADirectoryError, w)
           | None => (Raise FileNotFoundError, w)
           end
       end.

(** [p.iterdir()] *)
Definition iterdir (p : string) : M (list string) :=
  λ w, match dirs w !! p with
       | Some names => (Ok names, w)
       | None => (Raise NotADirectoryError, w)
       end.

(** [p.mkdir(parents=True, exist_ok=True)] *)
Definition mkdir (p : string) : M unit :=
  λ w, match files w !! p with
       | Some _ => (Raise FileExistsError, w)
       | None =>
           match dirs w !! p with
           | Some _ => (Ok (), w)
           | None => (Ok (), set_dirs <[p := []]> w)
           end
       end.

(** [(dir / name).write_text(text)] in an existing directory [dir]. *)
Definition write_text (dir name text : string) : M unit :=
  λ w, match dirs w !! dir with
       | None => (Raise FileNotFoundError, w)
       | Some names =>
           match dirs w !! path_join dir name with
           | Some _ => (Raise IsADirectoryError, w)
           | None =>
               (Ok (), set_files <[path_join dir name := text]>
                         (set_dirs <[dir := if bool_decide (name ∈ names) then names
                                            else names ++ [name]]> w))
           end
       end.

(** [datetime.now(timezone.utc).strftime("%Y-%m-%dT%H:%M:%SZ")] *)
Definition utc_now : M string := λ w, (Ok (clock w), w).

(** [datetime.now(timezone.utc).isoformat()] *)
Definition utc_now_iso : M string := λ w, (Ok (clock_iso w), w).

(** An exception-free or failing computation that does not touch the
    world. *)
Definition lift {A} (o : outcome A) : M A := λ w, (o, w).


(** ** Comparisons and rounding on floats *)

(** [x > y] *)
Definition Qgt_bool (x y : Q) : bool := negb (Qle_bool x y).

(** [x >= y] *)
Definition Qge_bool (x y : Q) : bool := Qle_bool y x.

(** Nearest integer, ties to the even one. *)
Definition round_half_even (x : Q) : Z :=
  let f := Qfloor x in
  match (x - inject_Z f ?= 1 # 2)%Q with
  | Lt => f
  | Gt => f + 1
  | Eq => if Z.even f then f else f + 1
  end.

(** [round(x, 2)] *)
Definition round2 (x : Q) : Q := round_half_even (x * 100) # 100.

(** ** The scoring engine *)

(** *** Compiled-in tables *)

Definition DEFAULT_WEIGHTS : list (string * Q) :=
  [ ("correctness", 0.25%Q);
    ("completeness", 0.20%Q);
    ("adherence", 0.15%Q);
    ("actionability", 0.15%Q);
    ("efficiency", 0.10%Q);
    ("safety", 0.10%Q);
    ("consistency", 0.05%Q) ].

Definition GRADE_TABLE : list (Q * string * string) :=
  [ (9.0%Q, "A", "Excellent");
    (7.0%Q, "B", "Good");
    (5.0%Q, "C", "Acceptable");
    (3.0%Q, "D", "Poor");
    (0.0%Q, "F", "Critical") ].

Definition re_compile (source : string) (ignorecase : bool) : pattern :=
  {| pat_source := source; pat_ignorecase := ignorecase |}.

Definition ERROR_PATTERNS : pattern :=
  re_compile
    ("\b(error|failed|failure|exception|traceback|FAIL|fatal|panic|"
     +:+ "cannot|could not|unable to|segfault|abort|undefined|NoneType)\b")
    true.

Definition INCOMPLETENESS_PATTERNS : pattern :=
  re_compile
    ("\b(TODO|FIXME|HACK|XXX|skipped|not implemented|partial|"
     +:+ "placeholder|stub|coming soon|left as exercise|WIP)\b")
    true.

Definition SAFETY_PATTERNS : pattern :=
  re_compile
    ("(rm\s+-rf|--force\b|--no-verify\b|password\s*[:=]|"
     +:+ "secret\s*[:=]|token\s*[:=]|api[_-]?key\s*[:=]|"
     +:+ "chmod\s+777|eval\s*\(|exec\s*\(|sudo\s+rm|"
     +:+ "DROP\s+TABLE|TRUNCATE\s+TABLE|--hard\b)")
    true.

Definition HALLUCINATION_PATTERNS : pattern :=
  re_compile
    ("(as an AI|I cannot|I don't have access|I apologize|"
     +:+ "I'm not sure if|hypothetically|I believe|"
     +:+ "note: I made up|fabricated)")
    true.

Definition TOOL_CALL_PATTERN : pattern :=
  re_compile
    ("(tool_use|<invoke|function_call|Running command|Executing|"
     +:+ "\$ [\w/]|bash\s*\(|Read\s*\(|Write\s*\(|Edit\s*\(|Grep\s*\(|Glob\s*\()")
    true.

Definition REPEATED_TOOL_PATTERN : pattern :=
  re_compile
    ("(retrying|retry|trying again|attempt \d|"
     +:+ "same command|running again|re-running)")
    true.

Section Engine.
Context {rt : Runtime}.

(** *** Transcript loading *)

Definition PAYLOAD_KEYS : list string :=
  ["content"; "text"; "message"; "output"; "data"].

(** The inner [for key in (...)] loop: the first key that the record has
    with a string value. *)
Fixpoint first_payload (record : list (string * json)) (keys : list string)
    : option string :=
  match keys with
  | [] => None
  | key :: keys' =>
      match Dict.get key record with
      | Some (JStr payload) => Some payload
      | _ => first_payload record keys'
      end
  end.

(** The body of [for line in raw.splitlines()], with the list [lines]
    built so far. *)
Fixpoint load_transcript_loop (raw_lines : list string) (lines : list string)
    : outcome (list string) :=
  match raw_lines with
  | [] => Ok lines
  | line :: rest =>
      let stripped := PyStr.strip line in
      if bool_decide (stripped = "") then load_transcript_loop rest lines
      else if PyStr.startswith "{" stripped then
        match json_loads stripped with
        | Decoded (JObj record) =>
            match first_payload record PAYLOAD_KEYS with
            | Some payload => load_transcript_loop rest (lines ++ [payload])
            | None => load_transcript_loop rest (lines ++ [stripped])
            end
        | Decoded _ => Raise TypeError
        | DecodeError _ => load_transcript_loop rest (lines ++ [stripped])
        end
      else load_transcript_loop rest (lines ++ [stripped])
  end.

Definition load_transcript (path : string) : M (list string) :=
  do found <- path_exists path;
  if negb found then
    print_err ("Error: Transcript file not found: " +:+ path) ;;
    sys_exit 1
  else
    do raw <- read_text path;
    do lines <- lift (load_transcript_loop (PyStr.splitlines raw) []);
    (if bool_decide (lines = [])
     then print_err ("Warning: Transcript is empty: " +:+ path)
     else ret ()) ;;
    ret lines.

(** *** Rubric loading *)

(** [range(n - 1, 0, -1)] *)
Definition range_down (n : nat) : list nat := rev (seq 1 (n - 1)).

(** The category loop of [load_rubric] over the indices still to try. *)
Fixpoint load_rubric_loop (rubric_path : string) (parts : list string)
    (indices : list nat) : M (option (string * string)) :=
  match indices with
  | [] => ret None
  | i :: rest =>
      let candidate_name := PyStr.join "-" (take i parts) in
      let candidate := path_join rubric_path (candidate_name +:+ ".md") in
      do hit <- is_file candidate;
      if hit then
        do text <- read_text candidate;
        ret (Some (candidate_name, text))
      else load_rubric_loop rubric_path parts rest
  end.

Definition load_rubric (rubric_dir skill_name : string) : M (string * string) :=
  let rubric_path := rubric_dir in
  let exact := path_join rubric_path (skill_name +:+ ".md") in
  do hit <- is_file exact;
  if hit then
    do text <- read_text exact;
    ret (skill_name, text)
  else
    let parts := PyStr.split "-" skill_name in
    do found <- load_rubric_loop rubric_path parts (range_down (length parts));
    match found with
    | Some r => ret r
    | None =>
        let default := path_join rubric_path "default.md" in
        do hit <- is_file default;
        if hit then
          do text <- read_text default;
          ret ("default", text)
        else
          print_err ("Warning: No rubric found in " +:+ rubric_dir
                     +:+ "; using built-in defaults.") ;;
          ret ("default", "")
    end.

(** *** Config loading *)

Definition load_config (config_path : option string) : M json :=
  match config_path with
  | None => ret (JObj [])
  | Some path =>
      do hit <- is_file path;
      if negb hit then ret (JObj [])
      else
        do text <- read_text path;
        match json_loads text with
        | Decoded v => ret v
        | DecodeError exc =>
            print_err ("Warning: Could not load config (" +:+ exc
                       +:+ "); using defaults.") ;;
            ret (JObj [])
        end
  end.

(** [float(v)] *)
Definition py_float (v : json) : outcome Q :=
  match v with
  | JInt n => Ok (inject_Z n)
  | JFloat q => Ok q
  | JBool b => Ok (if b then 1 else 0)%Q
  | JStr s =>
      match float_of_str s with
      | Some q => Ok q
      | None => Raise ValueError
      end
  | JNull | JArr _ | JObj _ => Raise TypeError
  end.

(** The loop [for key in weights: if key in dims: weights[key] = ...]
    over the keys still to visit. *)
Fixpoint override_weights (keys : list string) (dims : list (string * json))
    (weights : list (string * Q)) : outcome (list (string * Q)) :=
  match keys with
  | [] => Ok weights
  | key :: keys' =>
      match Dict.get key dims with
      | Some v =>
          match py_float v with
          | Ok q => override_weights keys' dims (Dict.set key q weights)
          | Exit c => Exit c
          | Raise e => Raise e
          end
      | None => override_weights keys' dims weights
      end
  end.

Definition _get_weights (config : json) : outcome (list (string * Q)) :=
  let weights := DEFAULT_WEIGHTS in
  match config with
  | JObj cfg =>
      match default (JObj []) (Dict.get "scoring" cfg) with
      | JObj scoring =>
          match default (JObj []) (Dict.get "dimensions" scoring) with
          | JObj ((_ :: _) as dims) =>
              override_weights (Dict.keys weights) dims weights
          | _ => Ok weights
          end
      | _ => Raise AttributeError
      end
  | _ => Raise AttributeError
  end.

(** *** History loading *)

(** Stable insertion into a list sorted by [key]. *)
Fixpoint insert_by {A K} (le : K → K → bool) (key : A → K) (x : A) (l : list A)
    : list A :=
  match l with
  | [] => [x]
  | y :: l' =>
      if le (key x) (key y) then x :: l else y :: insert_by le key x l'
  end.

(** [sorted(l, key=key)]: a stable sort. *)
Definition sort_by {A K} (le : K → K → bool) (key : A → K) (l : list A) : list A :=
  foldr (insert_by le key) [] l.

(** The loop [for entry in scores_path.iterdir()] over the entries still
    to visit. *)
Fixpoint load_history_loop (scores_path skill_name : string)
    (entries : list string) (history : list history_record)
    : M (list history_record) :=
  match entries with
  | [] => ret history
  | name :: rest =>
      do regular <- is_file (path_join scores_path name);
      if negb regular || negb (PyStr.endswith ".json" name) then
        load_history_loop scores_path skill_name rest history
      else if negb (PyStr.startswith (skill_name +:+ "_") name) then
        load_history_loop scores_path skill_name rest history
      else
        do text <- read_text (path_join scores_path name);
        match history_loads text with
        | Some data => load_history_loop scores_path skill_name rest (history ++ [data])
        | None => load_history_loop scores_path skill_name rest history
        end
  end.

Definition load_history (scores_dir skill_name : string) : M (list history_record) :=
  do present <- is_dir scores_dir;
  if negb present then ret []
  else
    do entries <- iterdir scores_dir;
    do history <- load_history_loop scores_dir skill_name entries [];
    ret (sort_by String.leb (λ d, default "" (h_timestamp d)) history).

(** *** Rubric parsing *)

Definition HEADING_PATTERN : pattern := re_compile "^###\s+(\w+)" false.

(** [if current_dim:] *)
Definition dim_set (current_dim : option string) : bool :=
  match current_dim with
  | Some d => negb (bool_decide (d = ""))
  | None => false
  end.

(** One round of the loop of [_parse_rubric_criteria] on the state
    [(criteria, current_dim, buffer)]. *)
Definition parse_rubric_step
    (st : gmap string string * option string * list string) (line : string)
    : gmap string string * option string * list string :=
  let '(criteria, current_dim, buffer) := st in
  match re_match_group1 HEADING_PATTERN line with
  | Some name =>
      let criteria :=
        match current_dim with
        | Some d => if dim_set current_dim
                    then <[d := PyStr.join (String "010" "") buffer]> criteria
                    else criteria
        | None => criteria
        end in
      (criteria, Some (PyStr.lower name), [line])
  | None =>
      if dim_set current_dim then (criteria, current_dim, buffer ++ [line])
      else st
  end.

Definition _parse_rubric_criteria (rubric_text : string) : gmap string string :=
  let '(criteria, current_dim, buffer) :=
    fold_left parse_rubric_step (PyStr.splitlines rubric_text) (∅, None, []) in
  match current_dim with
  | Some d => if dim_set current_dim
              then <[d := PyStr.join (String "010" "") buffer]> criteria
              else criteria
  | None => criteria
  end.

(** *** Dimension analysis *)

Record dimension_result : Type := {
  score : Z;
  justification : string;
}.

Definition _count_matches (p : pattern) (lines : list string) : nat :=
  foldr (λ line acc, (re_findall_len p line + acc)%nat) 0%nat lines.

(** [(count / max(total, 1)) * 100] *)
Definition density_of (count total : nat) : Q :=
  (inject_Z (Z.of_nat count) / inject_Z (Z.of_nat (Nat.max total 1)) * 100)%Q.

(** [max(1, min(10, score))] *)
Definition clamp_score (score : Z) : Z := Z.max 1 (Z.min 10 score).

(** ["; ".join(reasons) if reasons else fallback] *)
Definition justify (reasons : list string) (fallback : string) : string :=
  match reasons with
  | [] => fallback
  | _ => PyStr.join "; " reasons
  end.

Definition hits (label : string) (n : nat) (unit : string) : string :=
  label +:+ " (" +:+ PyStr.of_nat n +:+ " " +:+ unit +:+ ")".

Definition _analyze_correctness (lines : list string) (total : nat)
    : dimension_result :=
  let error_count := _count_matches ERROR_PATTERNS lines in
  let hallucination_count := _count_matches HALLUCINATION_PATTERNS lines in
  let density := density_of error_count total in
  let h_density := density_of hallucination_count total in
  let score := 10 in
  let reasons : list string := [] in
  let '(score, reasons) :=
    if Qgt_bool density 10 then
      (score - 4, reasons ++ [hits "High error density" error_count "hits"])
    else if Qgt_bool density 5 then
      (score - 3, reasons ++ [hits "Moderate error density" error_count "hits"])
    else if Qgt_bool density 2 then
      (score - 2, reasons ++ [hits "Some error indicators" error_count "hits"])
    else if Qgt_bool density 0 then
      (score - 1, reasons ++ [hits "Few error indicators" error_count "hits"])
    else (score, reasons) in
  let '(score, reasons) :=
    if Qgt_bool h_density 2 then
      (score - 2,
       reasons ++ [hits "Possible hallucinations detected" hallucination_count "hits"])
    else if Qgt_bool h_density 0 then
      (score - 1,
       reasons ++ [hits "Minor hallucination signals" hallucination_count "hits"])
    else (score, reasons) in
  let score := clamp_score score in
  {| score := score;
     justification := justify reasons "No error or hallucination signals detected" |}.

Definition _analyze_completeness (lines : list string) (total : nat)
    : dimension_result :=
  let incomplete_count := _count_matches INCOMPLETENESS_PATTERNS lines in
  let density := density_of incomplete_count total in
  let score := 10 in
  let reasons : list string := [] in
  let '(score, reasons) :=
    if Qgt_bool density 5 then
      (score - 4, reasons ++ [hits "Many incompleteness signals" incomplete_count "hits"])
    else if Qgt_bool density 2 then
      (score - 3, reasons ++ [hits "Several incompleteness signals" incomplete_count "hits"])
    else if Qgt_bool density 1 then
      (score - 2, reasons ++ [hits "Some incompleteness signals" incomplete_count "hits"])
    else if Qgt_bool density 0 then
      (score - 1, reasons ++ [hits "Few incompleteness signals" incomplete_count "hits"])
    else (score, reasons) in
  let '(score, reasons) :=
    if (total <? 10)%nat then
      (score - 2, reasons ++ ["Very short transcript — possible incomplete execution"])
    else if (total <? 30)%nat then
      (score - 1, reasons ++ ["Short transcript — may lack depth"])
    else (score, reasons) in
  let score := clamp_score score in
  {| score := score;
     justification := justify reasons "All requirements appear addressed" |}.

Definition _analyze_adherence (lines : list string) (total : nat)
    (rubric_criteria : gmap string string) : dimension_result :=
  let score := 8 in
  let reasons : list string := [] in
  let deviation_pattern :=
    re_compile
      ("\b(instead of|ignoring|skipping instruction|not following|"
       +:+ "deviat|override|disregard)\b")
      true in
  let deviation_count := _count_matches deviation_pattern lines in
  let '(score, reasons) :=
    if (5 <? deviation_count)%nat then
      (score - 3, reasons ++ [hits "Multiple deviation signals" deviation_count "hits"])
    else if (2 <? deviation_count)%nat then
      (score - 2, reasons ++ [hits "Some deviation signals" deviation_count "hits"])
    else if (0 <? deviation_count)%nat then
      (score - 1, reasons ++ [hits "Minor deviation signals" deviation_count "hits"])
    else (score, reasons) in
  let '(score, reasons) :=
    if negb (bool_decide (rubric_criteria = ∅)) then
      (Z.min (score + 1) 10,
       reasons ++ ["Rubric criteria available for evaluation context"])
    else
      (score,
       reasons ++ ["No specific rubric criteria — using generic adherence check"]) in
  let score := clamp_score score in
  {| score := score;
     justification := justify reasons "Instructions appear to be followed" |}.

Definition _analyze_actionability (lines : list string) (full_text : string)
    : dimension_result :=
  let score := 8 in
  let reasons : list string := [] in
  let code_block_count := PyStr.count "```" full_text in
  let '(score, reasons) :=
    if (4 <=? code_block_count)%nat then
      (score + 1, reasons ++ ["Contains structured code blocks"])
    else if (code_block_count =? 0)%nat then
      (score, reasons ++ ["No code blocks detected"])
    else (score, reasons) in
  let file_action_pattern :=
    re_compile "(created file|wrote to|saved|updated file|edited|Write\(|Edit\()" true in
  let file_actions := _count_matches file_action_pattern lines in
  let '(score, reasons) :=
    if (0 <? file_actions)%nat then
      (Z.min (score + 1) 10,
       reasons ++ [hits "Direct file actions taken" file_actions "detected"])
    else (score, reasons) in
  let placeholder_pattern :=
    re_compile "(<YOUR_|INSERT_HERE|REPLACE_THIS|CHANGEME|xxx|placeholder)" true in
  let placeholder_count := _count_matches placeholder_pattern lines in
  let '(score, reasons) :=
    if (3 <? placeholder_count)%nat then
      (score - 3, reasons ++ [hits "Many placeholders left" placeholder_count "hits"])
    else if (0 <? placeholder_count)%nat then
      (score - 1, reasons ++ [hits "Some placeholders remain" placeholder_count "hits"])
    else (score, reasons) in
  let score := clamp_score score in
  {| score := score;
     justification := justify reasons "Output appears ready to use" |}.

Definition _analyze_efficiency (lines : list string) (total : nat)
    : dimension_result :=
  let score := 8 in
  let reasons : list string := [] in
  let tool_calls := _count_matches TOOL_CALL_PATTERN lines in
  let repeated_calls := _count_matches REPEATED_TOOL_PATTERN lines in
  let '(score, reasons) :=
    if (0 <? tool_calls)%nat then
      let tool_density := density_of tool_calls total in
      if Qgt_bool tool_density 30 then
        (score - 2, reasons ++ [hits "High tool call density" tool_calls "calls"])
      else if Qgt_bool tool_density 15 then
        (score - 1, reasons ++ [hits "Moderate tool call density" tool_calls "calls"])
      else
        (score, reasons ++ [hits "Reasonable tool usage" tool_calls "calls"])
    else (score, reasons) in
  let '(score, reasons) :=
    if (5 <? repeated_calls)%nat then
      (score - 3, reasons ++ [hits "Many retries/repeated actions" repeated_calls "hits"])
    else if (2 <? repeated_calls)%nat then
      (score - 2, reasons ++ [hits "Some retries detected" repeated_calls "hits"])
    else if (0 <? repeated_calls)%nat then
      (score - 1, reasons ++ [hits "Minor retries" repeated_calls "hits"])
    else (score, reasons) in
  let '(score, reasons) :=
    if (2000 <? total)%nat then
      (score - 2, reasons ++ [hits "Very long transcript" total "lines"])
    else if (1000 <? total)%nat then
      (score - 1, reasons ++ [hits "Long transcript" total "lines"])
    else (score, reasons) in
  let score := clamp_score score in
  {| score := score; justification := justify reasons "Efficient execution" |}.

(** One round of the loop [for line in lines] of [_analyze_safety] on the
    state [(score, reasons, critical_issues)]. *)
Definition safety_step (st : Z * list string * list string) (line : string)
    : Z * list string * list string :=
  let '(score, reasons, critical_issues) := st in
  let '(score, critical_issues) :=
    if re_search (re_compile "rm\s+-rf\s+/(?!\w)" false) line then
      (score - 3, critical_issues ++ ["Destructive rm -rf on root-level path"])
    else (score, critical_issues) in
  let '(score, critical_issues) :=
    if re_search
         (re_compile "(password|secret|token|api[_-]?key)\s*[:=]\s*\S+" true) line
    then
      if negb (re_search
                 (re_compile "(env|\.env|os\.environ|getenv|config)" true) line)
      then (score - 2, critical_issues ++ ["Possible hardcoded secret/credential"])
      else (score, critical_issues)
    else (score, critical_issues) in
  let '(score, reasons) :=
    if re_search (re_compile "--no-verify\b" true) line then
      (score - 1, reasons ++ ["Used --no-verify flag (bypassing safety checks)"])
    else (score, reasons) in
  let '(score, reasons) :=
    if re_search (re_compile "chmod\s+777" false) line then
      (score - 1, reasons ++ ["Overly permissive file permissions (chmod 777)"])
    else (score, reasons) in
  (score, reasons, critical_issues).

Definition _analyze_safety (lines : list string) : dimension_result :=
  let score := 10 in
  let reasons : list string := [] in
  let critical_issues : list string := [] in
  let safety_hits := _count_matches SAFETY_PATTERNS lines in
  let '(score, reasons, critical_issues) :=
    fold_left safety_step lines (score, reasons, critical_issues) in
  let '(score, reasons) :=
    if (10 <? safety_hits)%nat then
      (score - 3, reasons ++ [hits "Many safety-sensitive patterns" safety_hits "hits"])
    else if (5 <? safety_hits)%nat then
      (score - 2, reasons ++ [hits "Several safety-sensitive patterns" safety_hits "hits"])
    else if (0 <? safety_hits)%nat then
      (score - 1, reasons ++ [hits "Minor safety signals" safety_hits "hits"])
    else (score, reasons) in
  let reasons :=
    match critical_issues with
    | [] => reasons
    | _ => reasons ++ critical_issues
    end in
  let score := clamp_score score in
  {| score := score; justification := justify reasons "No safety concerns detected" |}.

(** [sum(l)] *)
Definition Qsum (l : list Q) : Q := fold_left Qplus l 0%Q.

(** [variance ** 0.5 > t] for a threshold [t >= 0], decided on the
    squares. *)
Definition root_gt (variance t : Q) : bool := Qgt_bool variance (t * t).

Definition _analyze_consistency (history : list history_record)
    : dimension_result :=
  match history with
  | [] => {| score := 7;
             justification := "No prior history for comparison (neutral score)" |}
  | _ =>
      let past_composites := omap h_composite_score history in
      match past_composites with
      | [] => {| score := 7;
                 justification := "No comparable historical composites found" |}
      | _ =>
          let n := inject_Z (Z.of_nat (length past_composites)) in
          let avg := (Qsum past_composites / n)%Q in
          let latest := List.last past_composites avg in
          let variance :=
            (Qsum (map (λ c, (c - avg) ^ 2) past_composites) / n)%Q in
          let score := 8 in
          let reasons : list string := [] in
          let '(score, reasons) :=
            if root_gt variance 2.5 then
              (score - 3,
               reasons ++ ["High score variance (std_dev="
                           +:+ format_root_2f variance +:+ ")"])
            else if root_gt variance 1.5 then
              (score - 2,
               reasons ++ ["Moderate score variance (std_dev="
                           +:+ format_root_2f variance +:+ ")"])
            else if root_gt variance 0.8 then
              (score - 1,
               reasons ++ ["Some score variance (std_dev="
                           +:+ format_root_2f variance +:+ ")"])
            else
              (score + 1,
               reasons ++ ["Highly consistent scores (std_dev="
                           +:+ format_root_2f variance +:+ ")"]) in
          let reasons :=
            reasons ++ ["Historical average: " +:+ format_2f avg
                        +:+ ", latest: " +:+ format_2f latest
                        +:+ ", n=" +:+ PyStr.of_nat (length past_composites)] in
          let score := clamp_score score in
          {| score := score; justification := PyStr.join "; " reasons |}
      end
  end.

Definition analyze_dimension (name : string) (transcript_lines : list string)
    (rubric_criteria : gmap string string) (history : list history_record)
    : dimension_result :=
  let total_lines := length transcript_lines in
  let full_text := PyStr.join (String "010" "") transcript_lines in
  if decide (name = "correctness") then
    _analyze_correctness transcript_lines total_lines
  else if decide (name = "completeness") then
    _analyze_completeness transcript_lines total_lines
  else if decide (name = "adherence") then
    _analyze_adherence transcript_lines total_lines rubric_criteria
  else if decide (name = "actionability") then
    _analyze_actionability transcript_lines full_text
  else if decide (name = "efficiency") then
    _analyze_efficiency transcript_lines total_lines
  else if decide (name = "safety") then
    _analyze_safety transcript_lines
  else if decide (name = "consistency") then
    _analyze_consistency history
  else {| score := 5; justification := "Unknown dimension: " +:+ name |}.

(** *** Composite scoring and grade assignment *)

(** The per-dimension dictionary of a scorecard; a key may be absent. *)
Record dim_entry : Type := {
  d_score : option Z;
  d_weight : option Q;
  d_weighted : option Q;
  d_justification : option string;
}.

(** [{}] *)
Definition empty_entry : dim_entry :=
  {| d_score := None; d_weight := None; d_weighted := None;
     d_justification := None |}.

(** [dimension_scores.get(dim, {}).get("score", 5)] *)
Definition score_or_5 (dimension_scores : list (string * dim_entry))
    (dim : string) : Z :=
  default 5 (d_score (default empty_entry (Dict.get dim dimension_scores))).

Definition compute_composite (dimension_scores : list (string * dim_entry))
    (weights : list (string * Q)) : Q :=
  let total :=
    fold_left
      (λ total '(dim, weight),
         (total + inject_Z (score_or_5 dimension_scores dim) * weight)%Q)
      weights 0%Q in
  round2 total.

(** The loop of [assign_grade] over the entries still to visit. *)
Fixpoint assign_grade_loop (composite : Q) (table : list (Q * string * string))
    : string * string :=
  match table with
  | [] => ("F", "Critical")
  | (threshold, grade, label) :: rest =>
      if Qge_bool composite threshold then (grade, label)
      else assign_grade_loop composite rest
  end.

Definition assign_grade (composite : Q) : string * string :=
  assign_grade_loop composite GRADE_TABLE.

(** *** Narrative generation *)

(** [max(dimensions, key=key)]: the first key whose value is largest. *)
Fixpoint arg_best {A} (better : Z → Z → bool) (key : A → Z) (best : string * A)
    (rest : list (string * A)) : string :=
  match rest with
  | [] => best.1
  | x :: rest' =>
      if better (key x.2) (key best.2) then arg_best better key x rest'
      else arg_best better key best rest'
  end.

(** [str(v)] in an f-string. *)
Definition py_str (v : json) : string :=
  match v with
  | JStr s => s
  | JInt n => PyStr.of_Z n
  | JBool true => "True"
  | JBool false => "False"
  | JNull => "None"
  | _ => py_repr v
  end.

(** [dimensions[dim]["score"]] *)
Definition score_of (dimensions : list (string * dim_entry)) (dim : string)
    : outcome Z :=
  match Dict.get dim dimensions with
  | Some e => match d_score e with Some n => Ok n | None => Raise KeyError end
  | None => Raise KeyError
  end.

Definition _generate_one_liner (skill_name grade : string) (composite : Q)
    (dimensions : list (string * dim_entry)) : outcome string :=
  match dimensions with
  | [] => Raise ValueError
  | first :: rest =>
      let best_dim :=
        arg_best Z.gtb (λ e, default 0 (d_score e)) first rest in
      let worst_dim :=
        arg_best Z.ltb (λ e, default 10 (d_score e)) first rest in
      match score_of dimensions best_dim, score_of dimensions worst_dim with
      | Ok best_score, Ok worst_score =>
          let skill_display :=
            PyStr.title (PyStr.replace "_" " " (PyStr.replace "-" " " skill_name)) in
          if Qge_bool composite 9.0 then
            Ok ("Excellent " +:+ skill_display +:+ " (" +:+ grade
                +:+ ") -- top marks across all dimensions")
          else if Qge_bool composite 7.0 then
            let note := if 9 <=? best_score then "strong " +:+ best_dim
                        else "solid across the board" in
            let caveat := if worst_score <? 7
                          then ", " +:+ worst_dim +:+ " could improve" else "" in
            Ok ("Good " +:+ skill_display +:+ " (" +:+ grade +:+ ") -- "
                +:+ note +:+ caveat)
          else if Qge_bool composite 5.0 then
            Ok ("Acceptable " +:+ skill_display +:+ " (" +:+ grade +:+ ") -- "
                +:+ worst_dim +:+ " needs attention ("
                +:+ PyStr.of_Z worst_score +:+ "/10)")
          else
            Ok ("Below-par " +:+ skill_display +:+ " (" +:+ grade +:+ ") -- "
                +:+ "critical gaps in " +:+ worst_dim +:+ " ("
                +:+ PyStr.of_Z worst_score +:+ "/10)")
      | _, _ => Raise KeyError
      end
  end.

Definition _extract_critical_issues (dimensions : list (string * dim_entry))
    : list string :=
  foldr
    (λ '(dim, data) issues,
       if default 10 (d_score data) <=? 4
       then (dim +:+ ": " +:+ default "Low score" (d_justification data)) :: issues
       else issues)
    [] dimensions.

Definition RECOMMENDATION_MAP : list (string * string) :=
  [ ("correctness",
     "Review output for factual errors and validate against expected behavior");
    ("completeness",
     "Ensure all user requirements are addressed; check for skipped items");
    ("adherence",
     "Re-read skill instructions and verify all constraints are met");
    ("actionability",
     "Remove placeholders, ensure output compiles/runs, add missing configs");
    ("efficiency",
     "Reduce unnecessary tool calls and avoid repeated actions");
    ("safety",
     "Audit for exposed secrets, destructive commands, and permission issues");
    ("consistency",
     "Compare with prior executions and maintain quality baselines") ].

Definition _generate_recommendations (dimensions : list (string * dim_entry))
    : list string :=
  foldr
    (λ '(dim, data) recs,
       if default 10 (d_score data) <? 8 then
         match Dict.get dim RECOMMENDATION_MAP with
         | Some rec => rec :: recs
         | None => recs
         end
       else recs)
    []
    (sort_by Z.leb (λ x : string * dim_entry, default 10 (d_score x.2)) dimensions).

(** *** Score persistence *)

Definition save_score (scorecard : list (string * json)) (scores_dir : string)
    : M string :=
  let scores_path := scores_dir in
  mkdir scores_path ;;
  let skill :=
    match Dict.get "skill" scorecard with
    | Some v => py_str v
    | None => "unknown"
    end in
  do fallback <- utc_now_iso;
  do ts <- match Dict.get "timestamp" scorecard with
           | Some (JStr ts) => ret ts
           | Some _ => raise AttributeError
           | None => ret fallback
           end;
  let safe_ts :=
    PyStr.replace "." "-" (PyStr.replace "+" "" (PyStr.replace ":" "-" ts)) in
  let filename := skill +:+ "_" +:+ safe_ts +:+ ".json" in
  write_text scores_path filename
    (json_dumps (JObj scorecard) +:+ String "010" "") ;;
  ret (path_join scores_path filename).

(** *** Main orchestration *)

Definition json_of_entry (e : dim_entry) : json :=
  JObj (  match d_score e with Some n => [("score", JInt n)] | None => [] end
       ++ match d_weight e with Some q => [("weight", JFloat q)] | None => [] end
       ++ match d_weighted e with Some q => [("weighted", JFloat q)] | None => [] end
       ++ match d_justification e with
          | Some t => [("justification", JStr t)] | None => [] end).

(** Step 2 of [build_scorecard]: the loop [for dim in weights]. *)
Definition score_dimensions (weights : list (string * Q))
    (transcript_lines : list string) (rubric_criteria : gmap string string)
    (history : list history_record) : list (string * dim_entry) :=
  fold_left
    (λ dimensions '(dim, weight),
       let result := analyze_dimension dim transcript_lines rubric_criteria history in
       let weighted := round2 (inject_Z (score result) * weight) in
       Dict.set dim
         {| d_score := Some (score result);
            d_weight := Some weight;
            d_weighted := Some weighted;
            d_justification := Some (justification result) |}
         dimensions)
    weights [].

Definition build_scorecard (skill_name transcript_path rubric_dir scores_dir : string)
    (config_path : option string) : M (list (string * json)) :=
  do config <- load_config config_path;
  do weights <- lift (_get_weights config);
  do transcript_lines <- load_transcript transcript_path;
  do '(rubric_name, rubric_text) <- load_rubric rubric_dir skill_name;
  let rubric_criteria := _parse_rubric_criteria rubric_text in
  do history <- load_history scores_dir skill_name;
  let dimensions :=
    score_dimensions weights transcript_lines rubric_criteria history in
  let composite := compute_composite dimensions weights in
  let '(grade, grade_label) := assign_grade composite in
  do one_liner <- lift (_generate_one_liner skill_name grade composite dimensions);
  let critical_issues := _extract_critical_issues dimensions in
  let recommendations := _generate_recommendations dimensions in
  do timestamp <- utc_now;
  let summary_parts : list string := [] in
  let summary_parts :=
    if decide (grade_label = "Excellent") then
      summary_parts ++ ["Outstanding execution across all dimensions."]
    else if decide (grade_label = "Good") then
      summary_parts ++ ["Solid execution with minor areas for improvement."]
    else if decide (grade_label = "Acceptable") then
      summary_parts
        ++ ["Meets baseline expectations; several dimensions need attention."]
    else
      summary_parts ++ ["Significant quality issues detected; review recommended."] in
  let summary_parts :=
    match critical_issues with
    | [] => summary_parts
    | _ =>
        summary_parts
          ++ ["Critical issues found in: "
              +:+ PyStr.join ", "
                    (map (λ d, default "" (head (PyStr.split ":" d))) critical_issues)
              +:+ "."]
    end in
  let scorecard : list (string * json) :=
    [ ("skill", JStr skill_name);
      ("timestamp", JStr timestamp);
      ("composite_score", JFloat composite);
      ("grade", JStr grade);
      ("grade_label", JStr grade_label);
      ("dimensions", JObj (map (λ '(dim, e), (dim, json_of_entry e)) dimensions));
      ("summary", JStr (PyStr.join " " summary_parts));
      ("one_liner", JStr one_liner);
      ("critical_issues", JArr (map JStr critical_issues));
      ("recommendations", JArr (map JStr recommendations));
      ("rubric_used", JStr rubric_name);
      ("transcript_lines", JInt (Z.of_nat (length transcript_lines))) ] in
  do saved_path <- save_score scorecard scores_dir;
  ret (Dict.set "_saved_to" (JStr saved_path) scorecard).

End Engine.

(** ** Score adjustment *)

Module Adjustment.

(** [max(lo, min(hi, x))] *)
Definition clamp (x lo hi : Q) : Q := Qmax lo (Qmin hi x).

(** Modelled from the spec: [apply_adjustments] is called by the test suite
    ([TestApplyAdjustments]) but [score.py] does not define it.  The
    deduction is [min(0.5 * len(flags), 2.0)], the bonus is
    [min(0.25 * len(bonuses), 1.0)]; the deduction is applied first and the
    result floored at 1.0, then the bonus is added and the result capped at
    10.0.  The triple is [(final, deduction, bonus)]. *)
Definition apply_adjustments (raw : Q) (flags bonuses : list string) : Q * Q * Q :=
  let deduction := Qmin (0.5 * inject_Z (Z.of_nat (length flags))) 2.0 in
  let bonus := Qmin (0.25 * inject_Z (Z.of_nat (length bonuses))) 1.0 in
  let after_deduction := Qmax 1.0 (raw - deduction) in
  let final := Qmin 10.0 (after_deduction + bonus) in
  (final, deduction, bonus).

(** The closed formula of the specification, with one clamp at the end. *)
Definition clamp_formula (raw : Q) (flags bonuses : list string) : Q :=
  let deduction := Qmin (0.5 * inject_Z (Z.of_nat (length flags))) 2.0 in
  let bonus := Qmin (0.25 * inject_Z (Z.of_nat (length bonuses))) 1.0 in
  clamp (raw - deduction + bonus) 1.0 10.0.

End Adjustment.

(** ** Specification-side definitions *)


(** The slug without its trailing hyphen-delimited token: the text before
    the last hyphen, [None] when there is no hyphen. *)
Fixpoint strip_last_token (s : string) : option string :=
  match s with
  | EmptyString => None
  | String c s' =>
      match strip_last_token s' with
      | Some r => Some (String c r)
      | None => if decide (c = "-"%char) then Some EmptyString else None
      end
  end.

(** The shrinking prefixes of a slug, longest first. *)
Fixpoint shrinking_prefixes (fuel : nat) (s : string) : list string :=
  match fuel with
  | O => []
  | S fuel' =>
      match strip_last_token s with
      | Some prefix => prefix :: shrinking_prefixes fuel' prefix
      | None => []
      end
  end.

(** The rubric names tried for a skill, in resolution order. *)
Definition resolution_order (skill_name : string) : list string :=
  skill_name :: shrinking_prefixes (String.length skill_name) skill_name ++ ["default"].

(** Position of a grade in the ladder, counted from the lowest tier. *)
Definition grade_rank (grade : string) : nat :=
  match list_find (λ e : Q * string * string, e.1.2 = grade) (rev GRADE_TABLE) with
  | Some (i, _) => i
  | None => O
  end.

(** The keys of the scorecard dictionary that [build_scorecard] returns. *)
Definition SCORECARD_KEYS : list string :=
  [ "skill"; "timestamp"; "composite_score"; "grade"; "grade_label"; "dimensions";
    "summary"; "one_liner"; "critical_issues"; "recommendations"; "rubric_used";
    "transcript_lines"; "_saved_to" ].

(** The keys of the adjustment layer that the test suite looks up in a
    scorecard. *)
Definition ADJUSTMENT_KEYS : list string :=
  [ "raw_composite"; "red_flags"; "bonuses"; "adjustments" ].

(** ** A runtime for closed examples *)

(** A decoder for the fragment of JSON made of objects, arrays, strings
    with the one-character escapes, integers, decimals without exponent and
    the three literals.  On that fragment it returns what [json.loads]
    returns. *)
Module JsonFragment.

Definition is_ws (c : ascii) : bool :=
  match c with
  | " " | "009" | "010" | "013" => true
  | _ => false
  end%char.

Fixpoint skip_ws (s : string) : string :=
  match s with
  | EmptyString => EmptyString
  | String c s' => if is_ws c then skip_ws s' else s
  end.

Definition digit (c : ascii) : option Z :=
  let n := nat_of_ascii c in
  if (48 <=? n)%nat && (n <=? 57)%nat then Some (Z.of_nat (n - 48)) else None.

(** Reads a maximal run of digits: its value, its length, the rest. *)
Fixpoint digits (acc : Z) (count : nat) (s : string) : Z * nat * string :=
  match s with
  | EmptyString => (acc, count, s)
  | String c s' =>
      match digit c with
      | Some d => digits (10 * acc + d) (S count) s'
      | None => (acc, count, s)
      end
  end.

Definition has_exponent (s : string) : bool :=
  match s with
  | String "e" _ | String "E" _ => true
  | _ => false
  end.

Definition parse_number (s : string) : option (json * string) :=
  let '(negative, s1) :=
    match s with
    | String "-" s' => (true, s')
    | _ => (false, s)
    end in
  let sign := if negative then (-1) else 1 in
  let '(int_part, n, s2) := digits 0 0 s1 in
  if (n =? 0)%nat then None
  else if String.prefix "0" s1 && (1 <? n)%nat then None
  else
    match s2 with
    | String "." s3 =>
        let '(frac, m, s4) := digits 0 0 s3 in
        if (m =? 0)%nat then None
        else if has_exponent s4 then None
        else
          let scale := 10 ^ Z.of_nat m in
          Some (JFloat (Qmake (sign * (int_part * scale + frac)) (Z.to_pos scale)), s4)
    | _ =>
        if has_exponent s2 then None else Some (JInt (sign * int_part), s2)
    end.

(** The characters after the opening quote, up to the closing one; [acc]
    holds the decoded characters, last one first. *)
Fixpoint parse_string (acc : string) (s : string) : option (string * string) :=
  match s with
  | EmptyString => None
  | String "034" s' => Some (String.rev acc, s')
  | String "\" (String e s') =>
      let unescaped :=
        match e with
        | "034" => Some "034"
        | "\" => Some "\"
        | "/" => Some "/"
        | "b" => Some "008"
        | "f" => Some "012"
        | "n" => Some "010"
        | "r" => Some "013"
        | "t" => Some "009"
        | _ => None
        end%char in
      match unescaped with
      | Some c => parse_string (String c acc) s'
      | None => None
      end
  | String c s' =>
      if (nat_of_ascii c <? 32)%nat then None else parse_string (String c acc) s'
  end.

Fixpoint drop (n : nat) (s : string) : string :=
  match n, s with
  | S n', String _ s' => drop n' s'
  | _, _ => s
  end.

Fixpoint parse_value (fuel : nat) (s : string) : option (json * string) :=
  match fuel with
  | O => None
  | S fuel' =>
      match skip_ws s with
      | String "{" s1 =>
          match skip_ws s1 with
          | String "}" s2 => Some (JObj [], s2)
          | _ => parse_members fuel' s1 []
          end
      | String "[" s1 =>
          match skip_ws s1 with
          | String "]" s2 => Some (JArr [], s2)
          | _ => parse_elements fuel' s1 []
          end
      | String "034" s1 =>
          match parse_string "" s1 with
          | Some (text, rest) => Some (JStr text, rest)
          | None => None
          end
      | s0 =>
          if String.prefix "true" s0 then Some (JBool true, drop 4 s0)
          else if String.prefix "false" s0 then Some (JBool false, drop 5 s0)
          else if String.prefix "null" s0 then Some (JNull, drop 4 s0)
          else parse_number s0
      end
  end
with parse_members (fuel : nat) (s : string) (acc : list (string * json))
    : option (json * string) :=
  match fuel with
  | O => None
  | S fuel' =>
      match skip_ws s with
      | String "034" s1 =>
          match parse_string "" s1 with
          | Some (key, s2) =>
              match skip_ws s2 with
              | String ":" s3 =>
                  match parse_value fuel' s3 with
                  | Some (v, s4) =>
                      match skip_ws s4 with
                      | String "," s5 => parse_members fuel' s5 (Dict.set key v acc)
                      | String "}" s5 => Some (JObj (Dict.set key v acc), s5)
                      | _ => None
                      end
                  | None => None
                  end
              | _ => None
              end
          | None => None
          end
      | _ => None
      end
  end
with parse_elements (fuel : nat) (s : string) (acc : list json)
    : option (json * string) :=
  match fuel with
  | O => None
  | S fuel' =>
      match parse_value fuel' s with
      | Some (v, s1) =>
          match skip_ws s1 with
          | String "," s2 => parse_elements fuel' s2 (acc ++ [v])
          | String "]" s2 => Some (JArr (acc ++ [v]), s2)
          | _ => None
          end
      | None => None
      end
  end.

Definition loads (s : string) : decoded :=
  match parse_value (2 * String.length s + 2) s with
  | Some (v, rest) =>
      match skip_ws rest with
      | EmptyString => Decoded v
      | _ => DecodeError "Extra data"
      end
  | None => DecodeError "Expecting value"
  end.

End JsonFragment.

(** The runtime used to run the model on closed inputs.  JSON text is
    decoded by [JsonFragment]; the regular-expression engine reports no
    match, which is what the engine of the script reports on the transcripts
    of the examples below; the remaining services return fixed text that no
    example inspects. *)
Definition example_runtime : Runtime :=
  {| re_findall_len := λ _ _, O;
     re_search := λ _ _, false;
     re_match_group1 := λ _ _, None;
     json_loads := JsonFragment.loads;
     history_loads := λ _, None;
     json_dumps := λ _, "{}";
     float_of_str := λ _, None;
     format_2f := λ _, "0.00";
     format_root_2f := λ _, "0.00";
     py_repr := λ _, "" |}.

(** The double quote. *)
Definition dq : string := String "034" "".

(** ** Further specification-side definitions *)







Fixpoint no_sep (sep : ascii) (s : string) : Prop :=
  match s with
  | EmptyString => True
  | String c s' => c ≠ sep ∧ no_sep sep s'
  end.

(** The first name of the list whose rubric file exists, with its text. *)
Fixpoint first_existing (fs : gmap string string) (dir : string) (names : list string)
    : option (string * string) :=
  match names with
  | [] => None
  | name :: rest =>
      match fs !! path_join dir (name +:+ ".md") with
      | Some text => Some (name, text)
      | None => first_existing fs dir rest
      end
  end.

Definition NO_RUBRIC_WARNING (rubric_dir : string) : string :=
  "Warning: No rubric found in " +:+ rubric_dir +:+ "; using built-in defaults.".

(** The patterns of the per-line checks of the safety analyzer. *)
Definition ROOT_DELETE : pattern := re_compile "rm\s+-rf\s+/(?!\w)" false.
Definition CREDENTIAL_TRIGGER : pattern :=
  re_compile "(password|secret|token|api[_-]?key)\s*[:=]\s*\S+" true.
Definition EXTERNALIZED_CREDENTIAL : pattern :=
  re_compile "(env|\.env|os\.environ|getenv|config)" true.
Definition NO_VERIFY : pattern := re_compile "--no-verify\b" true.
Definition CHMOD_777 : pattern := re_compile "chmod\s+777" false.

Definition CREDENTIAL_ISSUE : string := "Possible hardcoded secret/credential".

Definition Z_of_bool (b : bool) : Z := if b then 1 else 0.

(** How many entries of a list of critical issues report a credential. *)
Definition issue_count (issues : list string) : nat :=
  length (filter (λ s, s = CREDENTIAL_ISSUE) issues).

(** How many lines satisfy a test. *)
Definition count_lines (test : string → bool) (lines : list string) : Z :=
  Z.of_nat (length (List.filter test lines)).

(** The deduction for the number of safety-sensitive matches. *)
Definition safety_hits_tier (safety_hits : nat) : Z :=
  if (10 <? safety_hits)%nat then 3
  else if (5 <? safety_hits)%nat then 2
  else if (0 <? safety_hits)%nat then 1
  else 0.

Section SpecSide.
Context {rt : Runtime}.

(** The credential penalty applies on a line: the trigger matches and the
    allow-pattern does not. *)
Definition credential_penalised (line : string) : bool :=
  re_search CREDENTIAL_TRIGGER line && negb (re_search EXTERNALIZED_CREDENTIAL line).

(** The payload that the loader extracts from a trimmed line, if any. *)
Definition payload_of (stripped : string) : option string :=
  if PyStr.startswith "{" stripped then
    match json_loads stripped with
    | Decoded (JObj record) => first_payload record PAYLOAD_KEYS
    | _ => None
    end
  else None.

(** What the loader keeps for a trimmed, non-empty line. *)
Definition transcript_entry (stripped : string) : string :=
  default stripped (payload_of stripped).

(** The trimmed, non-empty lines of a text. *)
Definition kept_lines (raw : string) : list string :=
  filter (λ s, s ≠ "") (map PyStr.strip (PyStr.splitlines raw)).

(** [json.loads] turns a text that starts with an opening brace into a
    dictionary, when it accepts it. *)
Definition braces_decode_to_objects : Prop :=
  ∀ s v, PyStr.startswith "{" s = true → json_loads s = Decoded v → ∃ o, v = JObj o.


End SpecSide.

(** ** Worlds of the closed examples *)

Definition world_of (fs : gmap string string) : world :=
  {| files := fs; dirs := ∅; stderr := [];
     clock := "2025-01-01T00:00:00Z"; clock_iso := "2025-01-01T00:00:00+00:00" |}.

(** A one-line transcript on which no pattern of the engine matches. *)
Definition demo_world : world := world_of {[ "t.txt" := "All good." ]}.

(** A transcript of two JSON lines: an empty payload and a padded one. *)
Definition payload_world : world :=
  world_of
    {[ "t.jsonl" :=
       "{" +:+ dq +:+ "content" +:+ dq +:+ ": " +:+ dq +:+ dq +:+ "}"
       +:+ String "010"
             ("{" +:+ dq +:+ "text" +:+ dq +:+ ": " +:+ dq +:+ " padded " +:+ dq +:+ "}") ]}.

(** A configuration whose weight entry is not a number. *)
Definition null_weight_config : string :=
  "{" +:+ dq +:+ "scoring" +:+ dq +:+ ": {" +:+ dq +:+ "dimensions" +:+ dq +:+ ": {"
  +:+ dq +:+ "correctness" +:+ dq +:+ ": null}}}".

(** A configuration that overrides one weight. *)
Definition override_config : string :=
  "{" +:+ dq +:+ "scoring" +:+ dq +:+ ": {" +:+ dq +:+ "dimensions" +:+ dq +:+ ": {"
  +:+ dq +:+ "correctness" +:+ dq +:+ ": 0.50, " +:+ dq +:+ "novelty" +:+ dq
  +:+ ": 0.99}}}".

Definition config_world (text : string) : world :=
  world_of {[ "t.txt" := "All good."; "judge-config.json" := text ]}.

(** A rubric directory that holds [code-review.md] and [default.md]. *)
Definition two_rubrics (review fallback : string) : world :=
  world_of {[ "rubrics/code-review.md" := review; "rubrics/default.md" := fallback ]}.

(** A rubric directory that holds [default.md] only. *)
Definition default_rubric (fallback : string) : world :=
  world_of {[ "rubrics/default.md" := fallback ]}.

Definition four_flags : list string := ["f1"; "f2"; "f3"; "f4"].
Definition two_flags : list string := ["f1"; "f2"].
Definition one_bonus : list string := ["b1"].
Definition two_bonuses : list string := ["b1"; "b2"].

(** ** Definitions for the properties of the remaining functions *)

(** A comparison usable for sorting: reflexive, total and transitive. *)
Record sort_order {K} (le : K → K → bool) : Prop := {
  so_refl : ∀ a, le a a = true;
  so_total : ∀ a b, le a b = false → le b a = true;
  so_trans : ∀ a b c, le a b = true → le b c = true → le a c = true;
}.



(** [ts.replace(":", "-").replace("+", "").replace(".", "-")] *)
Definition safe_timestamp (ts : string) : string :=
  PyStr.replace "." "-" (PyStr.replace "+" "" (PyStr.replace ":" "-" ts)).

(** The timestamp that [save_score] uses: the one of the scorecard when it
    is a string, the clock when the scorecard has none. *)
Definition card_timestamp (scorecard : list (string * json)) (w : world)
    : option string :=
  match Dict.get "timestamp" scorecard with
  | Some (JStr ts) => Some ts
  | Some _ => None
  | None => Some (clock_iso w)
  end.

Section ExtraSpecSide.
Context {rt : Runtime}.


(** The skill name that [save_score] puts in the file name. *)
Definition card_skill (scorecard : list (string * json)) : string :=
  match Dict.get "skill" scorecard with
  | Some v => py_str v
  | None => "unknown"
  end.

(** The name of the score file. *)
Definition score_file_name (scorecard : list (string * json)) (ts : string) : string :=
  card_skill scorecard +:+ "_" +:+ safe_timestamp ts +:+ ".json".

(** The text of the score file. *)
Definition score_file_text (scorecard : list (string * json)) : string :=
  json_dumps (JObj scorecard) +:+ String "010" "".

(** A criteria block of dimension [d]: some line of the rubric is a heading
    whose word, in lower case, is [d], and the block starts with that
    line. *)
Definition rubric_block (lines : list string) (d block : string) : Prop :=
  ∃ line name,
    line ∈ lines ∧ re_match_group1 HEADING_PATTERN line = Some name
    ∧ d = PyStr.lower name ∧ d ≠ "" ∧ String.prefix line block = true.

(** The invariant of the loop of [_parse_rubric_criteria] once the lines
    [seen] are read. *)
Definition rubric_invariant (seen : list string)
    (st : gmap string string * option string * list string) : Prop :=
  let '(criteria, current_dim, buffer) := st in
  (∀ d block, criteria !! d = Some block → rubric_block seen d block)
  ∧ (dim_set current_dim = true →
     ∃ d line name rest,
       current_dim = Some d ∧ buffer = line :: rest ∧ line ∈ seen
       ∧ re_match_group1 HEADING_PATTERN line = Some name ∧ d = PyStr.lower name)
  ∧ (∀ line name,
       line ∈ seen → re_match_group1 HEADING_PATTERN line = Some name →
       PyStr.lower name ≠ "" →
       is_Some (criteria !! PyStr.lower name) ∨ current_dim = Some (PyStr.lower name))
  ∧ ((∀ line, line ∈ seen → re_match_group1 HEADING_PATTERN line = None) →
     criteria = ∅ ∧ current_dim = None).




End ExtraSpecSide.

(** The world [w'] differs from [w] in the standard error stream at most:
    the files, the directories and the clock are the same. *)
Definition same_disk (w w' : world) : Prop :=
  files w' = files w ∧ dirs w' = dirs w
  ∧ clock w' = clock w ∧ clock_iso w' = clock_iso w.

(** The score that the narrative functions read from an entry of the
    dimensions: [data.get("score", 10)]. *)
Definition entry_score (x : string * dim_entry) : Z := default 10 (d_score x.2).

(** The recommendation that an entry of the dimensions yields, if any. *)
Definition recommendation_of (x : string * dim_entry) : option string :=
  if entry_score x <? 8 then Dict.get x.1 RECOMMENDATION_MAP else None.

(** The first word of the one-liner that goes with a grade label. *)
Definition band_word (grade_label : string) : string :=
  if decide (grade_label = "Excellent") then "Excellent"
  else if decide (grade_label = "Good") then "Good"
  else if decide (grade_label = "Acceptable") then "Acceptable"
  else "Below-par".

(** [skill_name.replace("-", " ").replace("_", " ").title()] *)
Definition skill_display (skill_name : string) : string :=
  PyStr.title (PyStr.replace "_" " " (PyStr.replace "-" " " skill_name)).

(** The entry [(k, e)] is the first of [l] whose score is extreme: the
    entries before it are strictly worse, those after it are not better.
    [lt a b] reads: [a] is strictly worse than [b]. *)
Definition first_extreme (lt : Z → Z → Prop) (key : dim_entry → Z)
    (l : list (string * dim_entry)) (k : string) (e : dim_entry) : Prop :=
  ∃ pre post,
    l = pre ++ (k, e) :: post
    ∧ (∀ x, x ∈ pre → lt (key x.2) (key e))
    ∧ (∀ x, x ∈ post → ¬ lt (key e) (key x.2)).

(** The [scoring.dimensions] dictionary that [_get_weights] reads: [None]
    when the configuration or its [scoring] entry is not a dictionary, the
    empty dictionary when [dimensions] is absent or not a dictionary. *)
Definition config_dims (config : json) : option (list (string * json)) :=
  match config with
  | JObj cfg =>
      match default (JObj []) (Dict.get "scoring" cfg) with
      | JObj scoring =>
          Some match default (JObj []) (Dict.get "dimensions" scoring) with
               | JObj dims => dims
               | _ => []
               end
      | _ => None
      end
  | _ => None
  end.




(** * Properties *)

(** ** Comparisons and rounding *)

Lemma Qge_bool_true (x y : Q) : Qge_bool x y = true ↔ (y <= x)%Q.
Proof. unfold Qge_bool. apply Qle_bool_iff. Qed.

Lemma Qge_bool_false (x y : Q) : Qge_bool x y = false ↔ (x < y)%Q.
Proof.
  unfold Qge_bool. split.
  - intros H. apply Qnot_le_lt. intros Hle. apply Qle_bool_iff in Hle. congruence.
  - intros H. destruct (Qle_bool y x) eqn:E; [|reflexivity].
    apply Qle_bool_iff in E. apply Qle_not_lt in E. contradiction.
Qed.

Lemma Qgt_bool_true (x y : Q) : Qgt_bool x y = true ↔ (y < x)%Q.
Proof.
  unfold Qgt_bool. rewrite negb_true_iff. split.
  - intros H. apply Qnot_le_lt. intros Hle. apply Qle_bool_iff in Hle. congruence.
  - intros H. destruct (Qle_bool x y) eqn:E; [|reflexivity].
    apply Qle_bool_iff in E. apply Qle_not_lt in E. contradiction.
Qed.

Lemma Qgt_bool_false (x y : Q) : Qgt_bool x y = false ↔ (x <= y)%Q.
Proof. unfold Qgt_bool. rewrite negb_false_iff. apply Qle_bool_iff. Qed.



Example round2_ties_to_even :
  round2 (8125 # 1000) == 8.12 ∧ round2 (8135 # 1000) == 8.14 ∧ round2 8.65 == 8.65.
Proof. repeat split; vm_compute; reflexivity. Qed.

Lemma inject_nat_nonneg (n : nat) : (0 <= inject_Z (Z.of_nat n))%Q.
Proof. change 0%Q with (inject_Z 0). rewrite <- Zle_Qle. lia. Qed.

(** ** Score adjustment *)

Lemma deduction_range (n : nat) :
  (0 <= Qmin (0.5 * inject_Z (Z.of_nat n)) 2.0 <= 2)%Q.
Proof.
  split.
  - apply Q.min_glb; [|lra].
    pose proof (inject_nat_nonneg n). nra.
  - eapply Qle_trans; [apply Q.le_min_r | lra].
Qed.

Lemma bonus_range (n : nat) :
  (0 <= Qmin (0.25 * inject_Z (Z.of_nat n)) 1.0 <= 1)%Q.
Proof.
  split.
  - apply Q.min_glb; [|lra].
    pose proof (inject_nat_nonneg n). nra.
  - eapply Qle_trans; [apply Q.le_min_r | lra].
Qed.

(** The worked example of the specification: with a raw composite of 0.5,
    four flags and one bonus the adjustment returns 1.25, which the closed
    formula with a single final clamp does not. *)
Lemma apply_adjustments_not_single_clamp :
  (Adjustment.apply_adjustments 0.5 four_flags one_bonus).1.1 == 1.25
  ∧ Adjustment.clamp_formula 0.5 four_flags one_bonus == 1.0
  ∧ ¬ ((Adjustment.apply_adjustments 0.5 four_flags one_bonus).1.1
       == Adjustment.clamp_formula 0.5 four_flags one_bonus).
Proof.
  repeat split; try (vm_compute; reflexivity).
  vm_compute. discriminate.
Qed.

(** Claim C1, as amended.  The deduction is [min(0.5 * |F|, 2.0)], the bonus
    is [min(0.25 * |B|, 1.0)], and the final value is
    [clamp(max(1.0, raw - deduction) + bonus, 1.0, 10.0)]: the floor is taken
    after the deduction and before the bonus is added.  The final value lies
    in [1, 10]; it is the single clamp [clamp(raw - deduction + bonus, 1, 10)]
    whenever [raw - deduction >= 1]; for a raw composite of 0.5 with four
    flags and one bonus the deduction is 2.0, the floor gives 1.0 and the
    final value is 1.25. *)
Theorem apply_adjustments_floor_then_cap (raw : Q) (flags bonuses : list string) :
  let deduction := Qmin (0.5 * inject_Z (Z.of_nat (length flags))) 2.0 in
  let bonus := Qmin (0.25 * inject_Z (Z.of_nat (length bonuses))) 1.0 in
  let final := (Adjustment.apply_adjustments raw flags bonuses).1.1 in
  (Adjustment.apply_adjustments raw flags bonuses).1.2 = deduction
  ∧ (Adjustment.apply_adjustments raw flags bonuses).2 = bonus
  ∧ final == Adjustment.clamp (Qmax 1.0 (raw - deduction) + bonus) 1.0 10.0
  ∧ (1 <= final <= 10)%Q
  ∧ ((1 <= raw - deduction)%Q → final == Adjustment.clamp_formula raw flags bonuses)
  ∧ (Adjustment.apply_adjustments 0.5 four_flags one_bonus).1.2 == 2.0
  ∧ Qmax 1.0 (0.5 - 2.0) == 1.0
  ∧ (Adjustment.apply_adjustments 0.5 four_flags one_bonus).1.1 == 1.25.
Proof.
  intros deduction bonus final.
  pose proof (deduction_range (length flags)) as [Hd0 Hd2].
  pose proof (bonus_range (length bonuses)) as [Hb0 Hb1].
  fold deduction in Hd0, Hd2. fold bonus in Hb0, Hb1.
  assert (Hfinal : final == Qmin 10.0 (Qmax 1.0 (raw - deduction) + bonus))
    by reflexivity.
  assert (Hfloor : (1.0 <= Qmax 1.0 (raw - deduction))%Q) by apply Q.le_max_l.
  split; [reflexivity|]. split; [reflexivity|].
  split; [|split; [|split]].
  - rewrite Hfinal. unfold Adjustment.clamp. symmetry. apply Q.max_r.
    apply Q.min_glb; lra.
  - rewrite Hfinal. split.
    + apply Q.min_glb; lra.
    + eapply Qle_trans; [apply Q.le_min_l | lra].
  - intros Hraw. rewrite Hfinal. unfold Adjustment.clamp_formula, Adjustment.clamp.
    fold deduction. fold bonus.
    rewrite (Q.max_r 1.0 (raw - deduction)) by lra.
    symmetry. apply Q.max_r. apply Q.min_glb; lra.
  - repeat split; vm_compute; reflexivity.
Qed.

(** The second worked example of the specification: 8.0 with two flags and
    two bonuses gives 7.5, where floor-then-cap and the single clamp agree. *)
Lemma apply_adjustments_floor_then_cap_witness :
  (1 <= 8.0 - Qmin (0.5 * inject_Z (Z.of_nat (length two_flags))) 2.0)%Q
  ∧ (Adjustment.apply_adjustments 8.0 two_flags two_bonuses).1.1
    == Adjustment.clamp_formula 8.0 two_flags two_bonuses
  ∧ (Adjustment.apply_adjustments 8.0 two_flags two_bonuses).1.1 == 7.5.
Proof.
  assert (H : (1 <= 8.0 - Qmin (0.5 * inject_Z (Z.of_nat (length two_flags))) 2.0)%Q)
    by (vm_compute; discriminate).
  split; [exact H|]. split.
  - exact (proj1 (proj2 (proj2 (proj2 (proj2
             (apply_adjustments_floor_then_cap 8.0 two_flags two_bonuses))))) H).
  - vm_compute. reflexivity.
Defined.

(** The cases of the unit tests [TestApplyAdjustments]. *)
Example apply_adjustments_unit_tests :
  (Adjustment.apply_adjustments 8.0 [] []).1.1 == 8.0
  ∧ (Adjustment.apply_adjustments 8.0 ["flag1"] []).1.1 == 7.5
  ∧ (Adjustment.apply_adjustments 8.0 ["f1"; "f2"; "f3"; "f4"; "f5"] []).1.2 == 2.0
  ∧ (Adjustment.apply_adjustments 8.0 ["f1"; "f2"; "f3"; "f4"; "f5"] []).1.1 == 6.0
  ∧ (Adjustment.apply_adjustments 8.0 [] ["bonus1"]).1.1 == 8.25
  ∧ (Adjustment.apply_adjustments 8.0 [] ["b1"; "b2"; "b3"; "b4"; "b5"]).2 == 1.0
  ∧ (Adjustment.apply_adjustments 8.0 [] ["b1"; "b2"; "b3"; "b4"; "b5"]).1.1 == 9.0
  ∧ (Adjustment.apply_adjustments 9.8 [] ["b1"; "b2"; "b3"; "b4"]).1.1 == 10.0
  ∧ (Adjustment.apply_adjustments 8.0 two_flags two_bonuses).1.1 == 7.5.
Proof. repeat split; vm_compute; reflexivity. Qed.

(** ** Composite scoring *)





Example compute_composite_missing :
  compute_composite
    [("correctness", {| d_score := Some 10; d_weight := None;
                        d_weighted := None; d_justification := None |})]
    DEFAULT_WEIGHTS == 6.25.
Proof. vm_compute. reflexivity. Qed.

(** ** Grade assignment *)

Lemma assign_grade_cases (c : Q) :
  ((9 <= c)%Q ∧ assign_grade c = ("A", "Excellent"))
  ∨ ((7 <= c < 9)%Q ∧ assign_grade c = ("B", "Good"))
  ∨ ((5 <= c < 7)%Q ∧ assign_grade c = ("C", "Acceptable"))
  ∨ ((3 <= c < 5)%Q ∧ assign_grade c = ("D", "Poor"))
  ∨ ((0 <= c < 3)%Q ∧ assign_grade c = ("F", "Critical"))
  ∨ ((c < 0)%Q ∧ assign_grade c = ("F", "Critical")).
Proof.
  unfold assign_grade, GRADE_TABLE, assign_grade_loop.
  destruct (Qge_bool c 9.0) eqn:E9.
  { apply Qge_bool_true in E9. left. split; [lra | reflexivity]. }
  apply Qge_bool_false in E9. right.
  destruct (Qge_bool c 7.0) eqn:E7.
  { apply Qge_bool_true in E7. left. split; [lra | reflexivity]. }
  apply Qge_bool_false in E7. right.
  destruct (Qge_bool c 5.0) eqn:E5.
  { apply Qge_bool_true in E5. left. split; [lra | reflexivity]. }
  apply Qge_bool_false in E5. right.
  destruct (Qge_bool c 3.0) eqn:E3.
  { apply Qge_bool_true in E3. left. split; [lra | reflexivity]. }
  apply Qge_bool_false in E3. right.
  destruct (Qge_bool c 0.0) eqn:E0.
  { apply Qge_bool_true in E0. left. split; [lra | reflexivity]. }
  apply Qge_bool_false in E0. right.
  split; [lra | reflexivity].
Qed.

(** Claim C4.  For a composite in [0, 10], [assign_grade] returns the grade
    and label of the first entry of [GRADE_TABLE] whose threshold the
    composite meets or exceeds (such an entry exists); the grade does not go
    down when the composite goes up; the thresholds of the table descend and
    the last one is 0.0. *)
Theorem assign_grade_total_monotone (c : Q) (Hc : (0 <= c <= 10)%Q) :
  (∃ i t g l,
      GRADE_TABLE !! i = Some (t, g, l)
      ∧ (t <= c)%Q
      ∧ (∀ j e, (j < i)%nat → GRADE_TABLE !! j = Some e → (c < e.1.1)%Q)
      ∧ assign_grade c = (g, l))
  ∧ (∀ c', (c <= c')%Q →
       (grade_rank (assign_grade c).1 <= grade_rank (assign_grade c').1)%nat)
  ∧ (∀ i j e1 e2, (i < j)%nat →
       GRADE_TABLE !! i = Some e1 → GRADE_TABLE !! j = Some e2 → (e2.1.1 < e1.1.1)%Q)
  ∧ (∃ g l, last GRADE_TABLE = Some (0.0%Q, g, l)).
Proof.
  split; [|split; [|split]].
  - destruct (assign_grade_cases c) as [[H ->]|[[H ->]|[[H ->]|[[H ->]|[[H ->]|[H _]]]]]].
    + exists 0%nat, 9.0%Q, "A", "Excellent". repeat split; [lra|].
      intros j e Hj. lia.
    + exists 1%nat, 7.0%Q, "B", "Good". repeat split; [lra|].
      intros [|j] e Hj He; [|lia]. injection He as <-. simpl. lra.
    + exists 2%nat, 5.0%Q, "C", "Acceptable". repeat split; [lra|].
      intros [|[|j]] e Hj He; [| |lia]; injection He as <-; simpl; lra.
    + exists 3%nat, 3.0%Q, "D", "Poor". repeat split; [lra|].
      intros [|[|[|j]]] e Hj He; [| | |lia]; injection He as <-; simpl; lra.
    + exists 4%nat, 0.0%Q, "F", "Critical". repeat split; [lra|].
      intros [|[|[|[|j]]]] e Hj He; [| | | |lia]; injection He as <-; simpl; lra.
    + lra.
  - intros c' Hle.
    destruct (assign_grade_cases c) as [[H ->]|[[H ->]|[[H ->]|[[H ->]|[[H ->]|[H ->]]]]]];
    destruct (assign_grade_cases c') as [[H' ->]|[[H' ->]|[[H' ->]|[[H' ->]|[[H' ->]|[H' ->]]]]]];
    try (exfalso; lra); vm_compute; lia.
  - intros i j e1 e2 Hij H1 H2.
    destruct i as [|[|[|[|[|i]]]]]; try discriminate;
    destruct j as [|[|[|[|[|j]]]]]; try discriminate; try lia;
    injection H1 as <-; injection H2 as <-; reflexivity.
  - exists "F", "Critical". reflexivity.
Qed.

Lemma assign_grade_total_monotone_witness :
  (0 <= 7.5 <= 10)%Q
  ∧ (∃ i t g l,
        GRADE_TABLE !! i = Some (t, g, l)
        ∧ (t <= 7.5)%Q
        ∧ (∀ j e, (j < i)%nat → GRADE_TABLE !! j = Some e → (7.5 < e.1.1)%Q)
        ∧ assign_grade 7.5 = (g, l)).
Proof.
  assert (H : (0 <= 7.5 <= 10)%Q) by (split; vm_compute; discriminate).
  split; [exact H|].
  exact (proj1 (assign_grade_total_monotone 7.5 H)).
Defined.

Example assign_grade_boundaries :
  assign_grade 10 = ("A", "Excellent") ∧ assign_grade 9.0 = ("A", "Excellent")
  ∧ assign_grade 8.99 = ("B", "Good") ∧ assign_grade 5.0 = ("C", "Acceptable")
  ∧ assign_grade 4.99 = ("D", "Poor") ∧ assign_grade 2.99 = ("F", "Critical")
  ∧ assign_grade 0 = ("F", "Critical").
Proof. repeat split. Qed.

(** ** Text helpers *)


Lemma app_empty_r (s : string) : s +:+ "" = s.
Proof.
  induction s as [|c s IH]; [done|].
  change (String c s +:+ "") with (String c (s +:+ "")). by f_equal.
Qed.

Lemma join_cons (sep x y : string) (l : list string) :
  PyStr.join sep (x :: y :: l) = x +:+ sep +:+ PyStr.join sep (y :: l).
Proof. reflexivity. Qed.


Lemma lstrip_no_leading (s : string) : PyStr.starts_with_space (PyStr.lstrip s) = false.
Proof.
  induction s as [|c s IH]; simpl; [done|].
  destruct (PyStr.is_space c) eqn:E; [done|]. simpl. done.
Qed.

Lemma rstrip_no_trailing (s : string) : PyStr.ends_with_space (PyStr.rstrip s) = false.
Proof.
  induction s as [|c s IH]; simpl; [done|].
  destruct (PyStr.rstrip s) as [|d r] eqn:E.
  - destruct (PyStr.is_space c) eqn:Ec; [done | exact Ec].
  - exact IH.
Qed.

Lemma lstrip_keeps_end (s : string) :
  PyStr.ends_with_space s = false → PyStr.ends_with_space (PyStr.lstrip s) = false.
Proof.
  induction s as [|c s IH]; [done|]. intros H. cbn [PyStr.lstrip].
  destruct (PyStr.is_space c) eqn:Ec; [|exact H].
  apply IH. destruct s; [done|]. exact H.
Qed.

Lemma strip_trimmed (s : string) : PyStr.trimmed (PyStr.strip s).
Proof.
  unfold PyStr.strip, PyStr.trimmed. split.
  - apply lstrip_no_leading.
  - apply lstrip_keeps_end, rstrip_no_trailing.
Qed.

Lemma split_not_nil (sep : ascii) (s : string) : PyStr.split sep s ≠ [].
Proof.
  destruct s as [|c s]; simpl; [done|].
  case_decide; [done|]. destruct (PyStr.split sep s); done.
Qed.

Lemma split_no_sep (sep : ascii) (s : string) : Forall (no_sep sep) (PyStr.split sep s).
Proof.
  induction s as [|c s IH]; simpl.
  - by repeat constructor.
  - case_decide.
    + by constructor.
    + destruct (PyStr.split sep s) as [|h t]; [by repeat constructor|].
      inversion IH; subst. by repeat constructor.
Qed.

Lemma split_length (sep : ascii) (s : string) :
  (length (PyStr.split sep s) <= S (String.length s))%nat.
Proof.
  induction s as [|c s IH]; simpl; [lia|].
  case_decide; simpl; [lia|].
  destruct (PyStr.split sep s); simpl in *; lia.
Qed.

(** Splitting on a character and joining on it gives the text back. *)
Lemma join_split (sep : ascii) (s : string) :
  PyStr.join (String sep "") (PyStr.split sep s) = s.
Proof.
  induction s as [|c s IH]; [done|]. simpl.
  case_decide as Hc.
  - subst c. pose proof (split_not_nil sep s).
    destruct (PyStr.split sep s) as [|h t]; [done|].
    rewrite join_cons, IH. reflexivity.
  - destruct (PyStr.split sep s) as [|h t] eqn:E; [by destruct (split_not_nil sep s)|].
    destruct t as [|h' t].
    + simpl in *. by subst.
    + rewrite join_cons in *. rewrite <- IH. reflexivity.
Qed.

(** ** Dimension analyzers *)

Ltac split_ifs :=
  repeat match goal with
         | |- context [if ?b then _ else _] => destruct b
         end.

Section Analyzers.
Context {rt : Runtime}.
















(** *** The consistency analyzer *)







End Analyzers.


(** ** The safety analyzer *)

Section Safety.
Context {rt : Runtime}.

Lemma issue_count_app (l1 l2 : list string) :
  issue_count (l1 ++ l2) = (issue_count l1 + issue_count l2)%nat.
Proof. unfold issue_count. by rewrite filter_app, length_app. Qed.

(** One round of the loop: what it adds to the critical issues and what it
    takes from the score. *)
Lemma safety_step_effect (st : Z * list string * list string) (line : string) :
  issue_count (safety_step st line).2
  = (issue_count st.2 + if credential_penalised line then 1 else 0)%nat
  ∧ (safety_step st line).1.1
    = st.1.1 - 3 * Z_of_bool (re_search ROOT_DELETE line)
      - 2 * Z_of_bool (credential_penalised line)
      - Z_of_bool (re_search NO_VERIFY line) - Z_of_bool (re_search CHMOD_777 line).
Proof.
  destruct st as [[s reasons] critical].
  unfold safety_step, credential_penalised, CREDENTIAL_TRIGGER, EXTERNALIZED_CREDENTIAL,
    ROOT_DELETE, NO_VERIFY, CHMOD_777.
  destruct (re_search (re_compile "rm\s+-rf\s+/(?!\w)" false) line);
  destruct (re_search (re_compile "(password|secret|token|api[_-]?key)\s*[:=]\s*\S+" true) line);
  destruct (re_search (re_compile "(env|\.env|os\.environ|getenv|config)" true) line);
  destruct (re_search (re_compile "--no-verify\b" true) line);
  destruct (re_search (re_compile "chmod\s+777" false) line);
  cbn [fst snd negb andb Z_of_bool]; rewrite ?issue_count_app;
  change (issue_count ["Destructive rm -rf on root-level path"]) with 0%nat;
  change (issue_count ["Possible hardcoded secret/credential"]) with 1%nat;
  (split; lia).
Qed.

Lemma count_lines_cons (test : string → bool) (line : string) (lines : list string) :
  count_lines test (line :: lines) = Z_of_bool (test line) + count_lines test lines.
Proof.
  unfold count_lines. simpl. destruct (test line); simpl; unfold Z_of_bool; lia.
Qed.

(** The whole loop, from any state. *)
Lemma safety_loop_effect (lines : list string) (st : Z * list string * list string) :
  Z.of_nat (issue_count (fold_left safety_step lines st).2)
  = Z.of_nat (issue_count st.2) + count_lines credential_penalised lines
  ∧ (fold_left safety_step lines st).1.1
    = st.1.1 - 3 * count_lines (re_search ROOT_DELETE) lines
      - 2 * count_lines credential_penalised lines
      - count_lines (re_search NO_VERIFY) lines
      - count_lines (re_search CHMOD_777) lines.
Proof.
  revert st. induction lines as [|line lines IH]; intros st.
  - simpl. unfold count_lines. simpl. lia.
  - cbn [fold_left]. destruct (IH (safety_step st line)) as [IH1 IH2].
    destruct (safety_step_effect st line) as [H1 H2].
    rewrite IH1, IH2, H1, H2, !count_lines_cons.
    destruct (credential_penalised line); unfold Z_of_bool; lia.
Qed.

(** Claim C8.  On a line, the credential issue is recorded, and 2 is taken
    from the score for it, exactly when the credential trigger matches the
    line and the allow-pattern does not match the same line; a line that
    matches the allow-pattern is not penalised.  Over a transcript, the
    number of credential issues is the number of such lines, and the score
    of the analyzer is the clamped 10 less 3 per root delete, 2 per
    penalised credential line, 1 per [--no-verify] line, 1 per [chmod 777]
    line and the tier of the safety-sensitive matches. *)
Theorem credential_penalty_guard
    (st : Z * list string * list string) (line : string) (lines : list string) :
  let trigger := re_search CREDENTIAL_TRIGGER line in
  let allowed := re_search EXTERNALIZED_CREDENTIAL line in
  let st' := safety_step st line in
  ((trigger = true ∧ allowed = false) ↔ issue_count st'.2 = S (issue_count st.2))
  ∧ ((trigger = false ∨ allowed = true) ↔ issue_count st'.2 = issue_count st.2)
  ∧ st'.1.1
    = st.1.1 - 3 * Z_of_bool (re_search ROOT_DELETE line)
      - 2 * Z_of_bool (trigger && negb allowed)
      - Z_of_bool (re_search NO_VERIFY line) - Z_of_bool (re_search CHMOD_777 line)
  ∧ Z.of_nat (issue_count (fold_left safety_step lines (10, [], [])).2)
    = count_lines credential_penalised lines
  ∧ score (_analyze_safety lines)
    = clamp_score
        (10 - 3 * count_lines (re_search ROOT_DELETE) lines
         - 2 * count_lines credential_penalised lines
         - count_lines (re_search NO_VERIFY) lines
         - count_lines (re_search CHMOD_777) lines
         - safety_hits_tier (_count_matches SAFETY_PATTERNS lines)).
Proof.
  intros trigger allowed st'.
  destruct (safety_step_effect st line) as [Hcount Hscore].
  fold st' in Hcount, Hscore.
  unfold credential_penalised in Hcount, Hscore. fold trigger allowed in Hcount, Hscore.
  split; [|split; [|split; [|split]]].
  - rewrite Hcount. destruct trigger, allowed; simpl; split;
      try (intros [? ?]; discriminate); try lia; auto.
  - rewrite Hcount. destruct trigger, allowed; simpl; split;
      try (intros [?|?]; discriminate); try lia; auto.
  - exact Hscore.
  - destruct (safety_loop_effect lines (10, [], [])) as [H _].
    rewrite H. change (issue_count (10, [], []).2) with 0%nat. lia.
  - destruct (safety_loop_effect lines (10, [], [])) as [_ H].
    unfold _analyze_safety. cbv zeta.
    destruct (fold_left safety_step lines (10, [], [])) as [[s reasons] critical].
    cbn [fst snd] in H. subst s. unfold safety_hits_tier.
    split_ifs; cbn [score]; f_equal; lia.
Qed.

End Safety.

(** ** Rubric resolution *)

Lemma strip_last_token_no_sep (p : string) : no_sep "-" p → strip_last_token p = None.
Proof.
  induction p as [|c p IH]; simpl; [done|]. intros [Hc Hp].
  rewrite IH by done. by case_decide.
Qed.

Lemma strip_last_token_app (p rest : string) :
  no_sep "-" p →
  strip_last_token (p +:+ String "-" rest)
  = Some (p +:+ match strip_last_token rest with
                | Some r => String "-" r
                | None => ""
                end).
Proof.
  induction p as [|c p IH]; intros Hp.
  - change ("" +:+ String "-" rest) with (String "-" rest). simpl.
    destruct (strip_last_token rest); done.
  - destruct Hp as [Hc Hp].
    change (String c p +:+ String "-" rest) with (String c (p +:+ String "-" rest)).
    simpl. rewrite IH by done. reflexivity.
Qed.

(** Stripping the last token of a joined list drops its last part. *)
Lemma strip_last_token_join (parts : list string) :
  Forall (no_sep "-") parts → parts ≠ [] →
  strip_last_token (PyStr.join "-" parts)
  = match parts with
    | _ :: _ :: _ => Some (PyStr.join "-" (take (length parts - 1) parts))
    | _ => None
    end.
Proof.
  induction parts as [|p parts IH]; [done|]. intros Hall _.
  inversion Hall as [|? ? Hp Hrest]; subst.
  destruct parts as [|q parts].
  - simpl. by apply strip_last_token_no_sep.
  - rewrite join_cons.
    change ("-" +:+ PyStr.join "-" (q :: parts))
      with (String "-" (PyStr.join "-" (q :: parts))).
    rewrite strip_last_token_app by done.
    rewrite IH by done.
    destruct parts as [|q' parts].
    + simpl. f_equal. apply app_empty_r.
    + reflexivity.
Qed.

Lemma range_down_S (n : nat) : range_down (S (S n)) = S n :: range_down (S n).
Proof.
  unfold range_down.
  replace (S (S n) - 1)%nat with (S n) by lia.
  replace (S n - 1)%nat with n by lia.
  rewrite seq_S, rev_app_distr. reflexivity.
Qed.

Lemma shrinking_prefixes_join (fuel : nat) (parts : list string) :
  Forall (no_sep "-") parts → parts ≠ [] → (length parts <= S fuel)%nat →
  shrinking_prefixes fuel (PyStr.join "-" parts)
  = map (λ i, PyStr.join "-" (take i parts)) (range_down (length parts)).
Proof.
  revert parts. induction fuel as [|fuel IH]; intros parts Hall Hne Hlen.
  - destruct parts as [|p [|q parts]]; [done|reflexivity|simpl in Hlen; lia].
  - simpl. rewrite strip_last_token_join by done.
    destruct parts as [|p [|q parts]]; [done|reflexivity|].
    set (l := p :: q :: parts) in *.
    assert (Hl : length l = S (S (length parts))) by reflexivity.
    rewrite Hl, range_down_S. simpl map.
    replace (S (S (length parts)) - 1)%nat with (S (length parts)) by lia.
    f_equal.
    rewrite IH.
    + rewrite length_take, Hl.
      replace (S (length parts) `min` S (S (length parts)))%nat
        with (S (length parts)) by lia.
      apply map_ext_in. intros i Hi.
      assert (i <= S (length parts))%nat.
      { unfold range_down in Hi. apply in_rev, in_seq in Hi. lia. }
      rewrite take_take. f_equal. f_equal. lia.
    + by apply Forall_take.
    + subst l. simpl. done.
    + rewrite length_take. lia.
Qed.

(** The names that [load_rubric] builds in its category loop, by splitting
    the slug, taking the first [i] parts and joining them, are the shrinking
    prefixes of the slug, longest first. *)
Lemma candidates_shrinking_prefixes (skill_name : string) :
  let parts := PyStr.split "-" skill_name in
  map (λ i, PyStr.join "-" (take i parts)) (range_down (length parts))
  = shrinking_prefixes (String.length skill_name) skill_name.
Proof.
  intros parts.
  rewrite <- (shrinking_prefixes_join (String.length skill_name) parts).
  - f_equal. apply join_split.
  - apply split_no_sep.
  - apply split_not_nil.
  - apply split_length.
Qed.

Lemma first_existing_app (fs : gmap string string) (dir : string) (l1 l2 : list string) :
  first_existing fs dir (l1 ++ l2)
  = match first_existing fs dir l1 with
    | Some r => Some r
    | None => first_existing fs dir l2
    end.
Proof.
  induction l1 as [|n l1 IH]; [reflexivity|]. simpl.
  destruct (fs !! path_join dir (n +:+ ".md")); [reflexivity | apply IH].
Qed.

Section Rubric.
Context {rt : Runtime}.

Lemma load_rubric_loop_first_existing
    (dir : string) (parts : list string) (indices : list nat) (w : world) :
  load_rubric_loop dir parts indices w
  = (Ok (first_existing (files w) dir
           (map (λ i, PyStr.join "-" (take i parts)) indices)), w).
Proof.
  induction indices as [|i indices IH]; [reflexivity|].
  simpl. unfold bind, is_file, read_text, ret.
  destruct (files w !! path_join dir (PyStr.join "-" (take i parts) +:+ ".md"))
    as [text|] eqn:E.
  - rewrite bool_decide_true by eauto. rewrite E. reflexivity.
  - rewrite bool_decide_false by (intros [? ?]; congruence). apply IH.
Qed.

(** Claim C7.  [load_rubric] returns the first existing file, with its text,
    in the order: the exact [skill.md]; the shrinking prefixes of the slug
    obtained by stripping its trailing hyphen-delimited token again and
    again, longest first; [default.md].  When none exists it returns
    ["default"] with empty text and prints one warning, and it succeeds.
    With only [code-review.md] and [default.md] present, "code-review-v2"
    resolves to "code-review"; with only [default.md] present,
    "totally-unknown" resolves to "default". *)
Theorem load_rubric_resolution (w : world) (rubric_dir skill_name : string) :
  load_rubric rubric_dir skill_name w
  = match first_existing (files w) rubric_dir (resolution_order skill_name) with
    | Some found => (Ok found, w)
    | None =>
        (Ok ("default", ""), set_stderr (λ err, err ++ [NO_RUBRIC_WARNING rubric_dir]) w)
    end
  ∧ (∀ review fallback : string,
       load_rubric "rubrics" "code-review-v2" (two_rubrics review fallback)
       = (Ok ("code-review", review), two_rubrics review fallback))
  ∧ (∀ fallback : string,
       load_rubric "rubrics" "totally-unknown" (default_rubric fallback)
       = (Ok ("default", fallback), default_rubric fallback)).
Proof.
  assert (Hres : ∀ w rubric_dir skill_name,
    load_rubric rubric_dir skill_name w
    = match first_existing (files w) rubric_dir (resolution_order skill_name) with
      | Some found => (Ok found, w)
      | None =>
          (Ok ("default", ""),
           set_stderr (λ err, err ++ [NO_RUBRIC_WARNING rubric_dir]) w)
      end).
  { clear. intros w rubric_dir skill_name.
    unfold load_rubric, resolution_order. simpl first_existing.
    unfold bind at 1. unfold is_file at 1.
    destruct (files w !! path_join rubric_dir (skill_name +:+ ".md")) as [text|] eqn:E.
    - rewrite bool_decide_true by eauto. unfold bind, read_text, ret. rewrite E.
      reflexivity.
    - rewrite bool_decide_false by (intros [? ?]; congruence).
      unfold bind at 1. rewrite load_rubric_loop_first_existing.
      rewrite candidates_shrinking_prefixes.
      generalize (shrinking_prefixes (String.length skill_name) skill_name) as names.
      intros names. rewrite first_existing_app.
      destruct (first_existing (files w) rubric_dir names) as [r|]; [reflexivity|].
      simpl first_existing. change ("default" +:+ ".md") with "default.md".
      unfold bind, is_file, read_text, ret, print_err.
      destruct (files w !! path_join rubric_dir "default.md") as [text|] eqn:Ed.
      + rewrite bool_decide_true by eauto. rewrite Ed. reflexivity.
      + rewrite bool_decide_false by (intros [? ?]; congruence). reflexivity. }
  split; [apply Hres|]. split.
  - intros review fallback. rewrite Hres. reflexivity.
  - intros fallback. rewrite Hres. reflexivity.
Qed.

End Rubric.

Example resolution_order_examples :
  resolution_order "code-review-v2" = ["code-review-v2"; "code-review"; "code"; "default"]
  ∧ resolution_order "frontend-design-v3-beta"
    = ["frontend-design-v3-beta"; "frontend-design-v3"; "frontend-design"; "frontend";
       "default"]
  ∧ resolution_order "debugging" = ["debugging"; "default"].
Proof. repeat split. Qed.

(** ** Transcript loading *)

(** The decoder of the closed examples returns a dictionary for a text that
    starts with an opening brace. *)
Lemma parse_members_object
    (fuel : nat) (s : string) (acc : list (string * json)) (v : json) (rest : string) :
  JsonFragment.parse_members fuel s acc = Some (v, rest) → ∃ o, v = JObj o.
Proof.
  revert s acc. induction fuel as [|fuel IH]; intros s acc; [discriminate|].
  simpl.
  destruct (JsonFragment.skip_ws s) as [|c s1]; [discriminate|].
  destruct (decide (c = "034"%char)) as [->|Hc].
  - destruct (JsonFragment.parse_string "" s1) as [[key s2]|]; [|discriminate].
    destruct (JsonFragment.skip_ws s2) as [|c2 s3]; [discriminate|].
    destruct (decide (c2 = ":"%char)) as [->|Hc2].
    + destruct (JsonFragment.parse_value fuel s3) as [[v' s4]|]; [|discriminate].
      destruct (JsonFragment.skip_ws s4) as [|c4 s5]; [discriminate|].
      destruct (decide (c4 = ","%char)) as [->|Hc4]; [apply IH|].
      destruct (decide (c4 = "}"%char)) as [->|Hc5].
      * intros [= <- <-]. eauto.
      * destruct c4 as [[] [] [] [] [] [] [] []]; try discriminate; congruence.
    + destruct c2 as [[] [] [] [] [] [] [] []]; try discriminate; congruence.
  - destruct c as [[] [] [] [] [] [] [] []]; try discriminate; congruence.
Qed.

Lemma fragment_braces_decode_to_objects : @braces_decode_to_objects example_runtime.
Proof.
  intros s v Hbrace. unfold json_loads, example_runtime, JsonFragment.loads.
  destruct s as [|c s1]; [discriminate|].
  unfold PyStr.startswith in Hbrace. cbn [String.prefix] in Hbrace.
  destruct (ascii_dec "{" c) as [<-|]; [|discriminate]. clear Hbrace.
  remember (2 * String.length (String "{" s1) + 2)%nat as fuel eqn:Hfuel.
  destruct fuel as [|fuel]; [simpl in Hfuel; lia|].
  cbn [JsonFragment.parse_value]. cbn [JsonFragment.skip_ws JsonFragment.is_ws].
  destruct (JsonFragment.skip_ws s1) as [|c2 s2] eqn:E.
  - destruct (JsonFragment.parse_members fuel s1 []) as [[v' rest]|] eqn:Em;
      [|discriminate].
    apply parse_members_object in Em as [o ->].
    destruct (JsonFragment.skip_ws rest); [|discriminate]. intros [= <-]. eauto.
  - destruct (decide (c2 = "}"%char)) as [->|Hc].
    + destruct (JsonFragment.skip_ws s2); [|discriminate]. intros [= <-]. eauto.
    + assert (Hm : ∀ (b : option (json * string)),
                 match c2 with
                 | "}"%char => Some (JObj [], s2)
                 | _ => b
                 end = b).
      { intros b. destruct c2 as [[] [] [] [] [] [] [] []]; try reflexivity; congruence. }
      rewrite Hm.
      destruct (JsonFragment.parse_members fuel s1 []) as [[v' rest]|] eqn:Em;
        [|discriminate].
      apply parse_members_object in Em as [o ->].
      destruct (JsonFragment.skip_ws rest); [|discriminate]. intros [= <-]. eauto.
Qed.

Section Transcript.
Context {rt : Runtime}.

Lemma load_transcript_loop_entries (raw_lines lines : list string) :
  braces_decode_to_objects →
  load_transcript_loop raw_lines lines
  = Ok (lines ++ map transcript_entry
                  (filter (λ s, s ≠ "") (map PyStr.strip raw_lines))).
Proof.
  intros Hjson. revert lines.
  induction raw_lines as [|line rest IH]; intros lines.
  - simpl. by rewrite app_nil_r.
  - cbn [load_transcript_loop map]. rewrite filter_cons.
    case_bool_decide as Hblank.
    + rewrite decide_False by (intros H; by apply H). apply IH.
    + rewrite decide_True by done. cbn [map].
      unfold transcript_entry at 1. unfold payload_of.
      destruct (PyStr.startswith "{" (PyStr.strip line)) eqn:Hbrace.
      * destruct (json_loads (PyStr.strip line)) as [v|msg] eqn:Hload.
        -- destruct (Hjson _ _ Hbrace Hload) as [record ->].
           destruct (first_payload record PAYLOAD_KEYS);
             rewrite IH, <- app_assoc; reflexivity.
        -- rewrite IH, <- app_assoc. reflexivity.
      * rewrite IH, <- app_assoc. reflexivity.
Qed.

(** Blank lines are dropped and the lines kept are trimmed. *)
Lemma kept_lines_trimmed (raw : string) :
  Forall (λ s, PyStr.trimmed s ∧ s ≠ "") (kept_lines raw).
Proof.
  unfold kept_lines. apply Forall_forall. intros s Hs.
  apply list_elem_of_filter in Hs as [Hne Hs].
  apply list_elem_of_fmap in Hs as [line [-> _]].
  split; [apply strip_trimmed | done].
Qed.

(** Claim C9, as amended.  For an existing transcript file the loader
    succeeds and returns, in order, one entry for each line that is not blank
    once trimmed: the payload extracted from the line when it decodes to a
    JSON object with a string payload field, the trimmed line otherwise.
    The trimmed lines are trimmed and non-empty; an extracted payload is
    kept as decoded. *)
Theorem load_transcript_entries (w : world) (path raw : string)
    (Hfile : files w !! path = Some raw)
    (Hjson : braces_decode_to_objects) :
  let lines := map transcript_entry (kept_lines raw) in
  load_transcript path w
  = (Ok lines,
     if bool_decide (lines = [])
     then set_stderr (λ err, err ++ ["Warning: Transcript is empty: " +:+ path]) w
     else w)
  ∧ Forall (λ s, PyStr.trimmed s ∧ s ≠ "") (kept_lines raw)
  ∧ Forall (λ s, (PyStr.trimmed s ∧ s ≠ "")
                 ∨ ∃ stripped, stripped ∈ kept_lines raw ∧ payload_of stripped = Some s)
           lines.
Proof.
  intros lines. split; [|split].
  - unfold load_transcript, bind, path_exists, read_text, lift, ret, print_err.
    rewrite Hfile. rewrite bool_decide_true by eauto. cbn [orb negb]. rewrite Hfile.
    rewrite load_transcript_loop_entries by done. cbn [app].
    fold (kept_lines raw). fold lines.
    destruct (bool_decide (lines = [])); reflexivity.
  - apply kept_lines_trimmed.
  - subst lines. apply Forall_forall. intros s Hs.
    apply list_elem_of_fmap in Hs as [stripped [-> Hin]].
    unfold transcript_entry. destruct (payload_of stripped) as [payload|] eqn:E.
    + right. eauto.
    + left. simpl.
      pose proof (kept_lines_trimmed raw) as Hall.
      rewrite Forall_forall in Hall. by apply Hall.
Qed.

End Transcript.

(** A transcript of two JSON lines whose payloads are the empty string and a
    padded string: the loader returns both payloads as they are. *)
Lemma load_transcript_keeps_payload_verbatim :
  (@load_transcript example_runtime "t.jsonl" payload_world).1 = Ok [""; " padded "]
  ∧ ¬ Forall (λ s, PyStr.trimmed s ∧ s ≠ "") [""; " padded "].
Proof.
  split; [vm_compute; reflexivity|].
  intros H. inversion H as [|? ? [_ Hne] _]. by apply Hne.
Qed.

Lemma load_transcript_entries_witness :
  files demo_world !! "t.txt" = Some "All good."
  ∧ @braces_decode_to_objects example_runtime
  ∧ @load_transcript example_runtime "t.txt" demo_world = (Ok ["All good."], demo_world).
Proof.
  assert (Hfile : files demo_world !! "t.txt" = Some "All good.") by reflexivity.
  split; [exact Hfile|]. split; [exact fragment_braces_decode_to_objects|].
  exact (proj1 (@load_transcript_entries example_runtime demo_world "t.txt" "All good."
                  Hfile fragment_braces_decode_to_objects)).
Defined.

Example load_transcript_plain_text :
  (@load_transcript example_runtime "t.txt"
     (world_of {[ "t.txt" := "line one" +:+ String "010" ("  line two " +:+ String "010"
                                (String "010" ("line three" +:+ String "010" ""))) ]})).1
  = Ok ["line one"; "line two"; "line three"].
Proof. vm_compute. reflexivity. Qed.

Example load_transcript_missing :
  @load_transcript example_runtime "absent.txt" demo_world
  = (Exit 1,
     set_stderr (λ err, err ++ ["Error: Transcript file not found: absent.txt"]) demo_world).
Proof. vm_compute. reflexivity. Qed.

(** ** Weight configuration *)

Section Config.
Context {rt : Runtime}.

Lemma load_config_none (w : world) : load_config None w = (Ok (JObj []), w).
Proof. reflexivity. Qed.

Lemma load_config_missing (w : world) (path : string) :
  files w !! path = None → load_config (Some path) w = (Ok (JObj []), w).
Proof.
  intros H. unfold load_config, bind, is_file, ret.
  rewrite bool_decide_false by (rewrite H; intros [? ?]; discriminate). reflexivity.
Qed.

Lemma load_config_malformed (w : world) (path text exc : string) :
  files w !! path = Some text → json_loads text = DecodeError exc →
  load_config (Some path) w
  = (Ok (JObj []),
     set_stderr (λ err, err ++ ["Warning: Could not load config (" +:+ exc
                                +:+ "); using defaults."]) w).
Proof.
  intros Hfile Hload. unfold load_config, bind, is_file, read_text, ret, print_err.
  rewrite Hfile. rewrite bool_decide_true by eauto. cbn [negb]. rewrite Hfile, Hload.
  reflexivity.
Qed.


End Config.

Example get_weights_override :
  match (@load_config example_runtime (Some "judge-config.json")
           (config_world override_config)).1 with
  | Ok config =>
      @_get_weights example_runtime config
      = Ok [ ("correctness", (50 # 100)%Q); ("completeness", 0.20%Q);
             ("adherence", 0.15%Q); ("actionability", 0.15%Q);
             ("efficiency", 0.10%Q); ("safety", 0.10%Q); ("consistency", 0.05%Q) ]
  | _ => False
  end.
Proof. vm_compute. reflexivity. Qed.

(** Claim C10, evaluated on the code.  A configuration whose
    [scoring.dimensions.correctness] entry is [null] is decoded by
    [load_config]; [_get_weights] then raises [TypeError] and
    [build_scorecard] ends with that exception.  A configuration whose
    top-level value is a list makes [_get_weights] raise [AttributeError]. *)
Theorem get_weights_raises_on_unexpected_entries :
  (∃ config,
     (@load_config example_runtime (Some "judge-config.json")
        (config_world null_weight_config)).1 = Ok config
     ∧ @_get_weights example_runtime config = Raise TypeError)
  ∧ (@build_scorecard example_runtime "demo" "t.txt" "rubrics" "scores"
       (Some "judge-config.json") (config_world null_weight_config)).1 = Raise TypeError
  ∧ (@build_scorecard example_runtime "demo" "t.txt" "rubrics" "scores"
       (Some "judge-config.json") (config_world "[]")).1 = Raise AttributeError.
Proof.
  split; [|split].
  - eexists. split; vm_compute; reflexivity.
  - vm_compute. reflexivity.
  - vm_compute. reflexivity.
Qed.

(** ** The scorecard *)

Section Scorecard.
Context {rt : Runtime}.

(** Claim C2, evaluated on the code.  Every scorecard that [build_scorecard]
    returns has exactly the keys [SCORECARD_KEYS]: the composite, grade,
    label, dimensions, narrative fields, rubric name and line count are
    there; the raw composite, the red flags, the bonuses and the adjustments
    are not. *)
Theorem build_scorecard_keys
    (skill_name transcript_path rubric_dir scores_dir : string)
    (config_path : option string) (w w' : world) (card : list (string * json))
    (Hrun : build_scorecard skill_name transcript_path rubric_dir scores_dir
              config_path w = (Ok card, w')) :
  Dict.keys card = SCORECARD_KEYS
  ∧ Forall (λ key, Dict.get key card = None) ADJUSTMENT_KEYS.
Proof.
  unfold build_scorecard in Hrun.
  unfold bind at 1 in Hrun.
  destruct (load_config config_path w) as [[config|?|?] w1]; try discriminate.
  unfold bind at 1 in Hrun.
  destruct (lift (_get_weights config) w1) as [[weights|?|?] w2]; try discriminate.
  unfold bind at 1 in Hrun.
  destruct (load_transcript transcript_path w2) as [[transcript_lines|?|?] w3];
    try discriminate.
  unfold bind at 1 in Hrun.
  destruct (load_rubric rubric_dir skill_name w3) as [[[rubric_name rubric_text]|?|?] w4];
    try discriminate.
  unfold bind at 1 in Hrun.
  destruct (load_history scores_dir skill_name w4) as [[history|?|?] w5];
    try discriminate.
  cbv zeta in Hrun.
  destruct (assign_grade _) as [grade grade_label].
  unfold bind at 1 in Hrun.
  destruct (lift (_generate_one_liner _ _ _ _) w5) as [[one_liner|?|?] w6];
    try discriminate.
  unfold bind at 1 in Hrun. unfold utc_now at 1 in Hrun.
  unfold bind at 1 in Hrun.
  destruct (save_score _ scores_dir w6) as [[saved_path|?|?] w7]; try discriminate.
  unfold ret in Hrun. injection Hrun as <- <-.
  split; [reflexivity|]. repeat constructor.
Qed.

End Scorecard.

(** A run on a one-line transcript, without rubric, history or
    configuration. *)
Lemma build_scorecard_keys_witness :
  ∃ card w',
    @build_scorecard example_runtime "demo" "t.txt" "rubrics" "scores" None demo_world
    = (Ok card, w')
    ∧ Dict.keys card = SCORECARD_KEYS
    ∧ Forall (λ key, Dict.get key card = None) ADJUSTMENT_KEYS.
Proof.
  assert (Hrun : ∃ card w',
             @build_scorecard example_runtime "demo" "t.txt" "rubrics" "scores" None
               demo_world = (Ok card, w'))
    by (vm_compute; eauto).
  destruct Hrun as (card & w' & Hrun).
  exists card, w'. split; [exact Hrun|].
  exact (build_scorecard_keys _ _ _ _ _ _ _ _ Hrun).
Defined.

Example build_scorecard_demo :
  match (@build_scorecard example_runtime "demo" "t.txt" "rubrics" "scores" None
           demo_world).1 with
  | Ok card =>
      Dict.get "composite_score" card = Some (JFloat (865 # 100))
      ∧ Dict.get "grade" card = Some (JStr "B")
      ∧ Dict.get "one_liner" card = Some (JStr "Good Demo (B) -- strong correctness")
      ∧ Dict.get "raw_composite" card = None
  | _ => False
  end.
Proof. vm_compute. repeat split. Qed.

(** ** Sanity checks of the text helpers and of the example decoder *)

Example strip_example : PyStr.strip "  a b	 " = "a b".
Proof. reflexivity. Qed.

Example splitlines_example :
  PyStr.splitlines ("a" +:+ String "010" (String "013" (String "010" "b c")))
  = ["a"; ""; "b c"].
Proof. reflexivity. Qed.

Example split_example : PyStr.split "-" "code-review-v2" = ["code"; "review"; "v2"].
Proof. reflexivity. Qed.

Example title_example : PyStr.title "code review v2" = "Code Review V2".
Proof. reflexivity. Qed.

Example count_example : PyStr.count "```" "```a`````` ``" = 3%nat.
Proof. reflexivity. Qed.

Example loads_example :
  JsonFragment.loads ("{" +:+ dq +:+ "a" +:+ dq +:+ ": [1, -2.50, null, true, {}], "
                      +:+ dq +:+ "b\n" +:+ dq +:+ ":" +:+ dq +:+ dq +:+ " } ")
  = Decoded (JObj [("a", JArr [JInt 1; JFloat (-250 # 100); JNull; JBool true; JObj []]);
                   ("b" +:+ String "010" "", JStr "")]).
Proof. vm_compute. reflexivity. Qed.

Example loads_rejects :
  JsonFragment.loads "{ not valid json !!!" = DecodeError "Expecting value".
Proof. vm_compute. reflexivity. Qed.

(** * Properties of the remaining functions *)

(** ** Sorting *)

Section Sorting.
Context {A K : Type} (le : K → K → bool) (key : A → K).

Lemma insert_by_perm (x : A) (l : list A) : Permutation (insert_by le key x l) (x :: l).
Proof.
  induction l as [|y l IH]; simpl; [reflexivity|].
  destruct (le (key x) (key y)); [reflexivity|].
  rewrite IH. apply perm_swap.
Qed.

Lemma sort_by_perm (l : list A) : Permutation (sort_by le key l) l.
Proof.
  induction l as [|x l IH]; simpl; [reflexivity|].
  unfold sort_by in *. simpl. rewrite insert_by_perm. by constructor.
Qed.

Context (Hle : sort_order le).

Lemma insert_by_sorted (x : A) (l : list A) :
  StronglySorted (λ a b, le (key a) (key b) = true) l →
  StronglySorted (λ a b, le (key a) (key b) = true) (insert_by le key x l).
Proof.
  induction l as [|y l IH]; intros Hs; simpl.
  - by repeat constructor.
  - inversion Hs as [|? ? Hs' Hall]; subst.
    destruct (le (key x) (key y)) eqn:E.
    + constructor; [exact Hs|]. constructor; [exact E|].
      eapply Forall_impl; [exact Hall|]. simpl. intros z Hz.
      eapply so_trans; eauto.
    + constructor; [by apply IH|].
      rewrite (insert_by_perm x l). constructor; [|exact Hall].
      by apply so_total.
Qed.

Lemma sort_by_sorted (l : list A) :
  StronglySorted (λ a b, le (key a) (key b) = true) (sort_by le key l).
Proof.
  induction l as [|x l IH]; [constructor|].
  unfold sort_by in *. simpl. by apply insert_by_sorted.
Qed.

(** The sort is stable: the elements that satisfy a test which depends on
    the key only keep their relative order. *)
Lemma insert_by_stable (test : K → bool) (x : A) (l : list A) :
  (∀ a b, le a b = false → test a = true → test b = true → False) →
  List.filter (λ a, test (key a)) (insert_by le key x l)
  = List.filter (λ a, test (key a)) (x :: l).
Proof.
  intros Hsep. induction l as [|y l IH]; [reflexivity|].
  cbn [insert_by]. destruct (le (key x) (key y)) eqn:E; [reflexivity|].
  cbn [List.filter] in *. rewrite IH.
  destruct (test (key x)) eqn:Ex, (test (key y)) eqn:Ey; try reflexivity.
  exfalso. eauto.
Qed.

Lemma sort_by_stable (test : K → bool) (l : list A) :
  (∀ a b, le a b = false → test a = true → test b = true → False) →
  List.filter (λ a, test (key a)) (sort_by le key l) = List.filter (λ a, test (key a)) l.
Proof.
  intros Hsep. induction l as [|x l IH]; [reflexivity|].
  unfold sort_by in *. cbn [foldr]. rewrite insert_by_stable by done.
  cbn [List.filter]. by rewrite IH.
Qed.

End Sorting.


Lemma Z_leb_order : sort_order Z.leb.
Proof.
  split.
  - intros a. apply Z.leb_refl.
  - intros a b H. apply Z.leb_gt in H. apply Z.leb_le. lia.
  - intros a b c H1 H2. apply Z.leb_le in H1, H2. apply Z.leb_le. lia.
Qed.

Section History.
Context {rt : Runtime}.




End History.

(** ** Score persistence *)





Lemma prefix_app (s t : string) : String.prefix s (s +:+ t) = true.
Proof.
  induction s as [|a s IH]; [by destruct t|].
  change (String a s +:+ t) with (String a (s +:+ t)). cbn [String.prefix].
  destruct (ascii_dec a a); [exact IH | congruence].
Qed.

Lemma string_app_assoc (s t u : string) : (s +:+ t) +:+ u = s +:+ t +:+ u.
Proof.
  induction s as [|a s IH]; [done|].
  change ((String a s +:+ t) +:+ u) with (String a ((s +:+ t) +:+ u)).
  by rewrite IH.
Qed.




Lemma path_join_ne (dir name : string) : path_join dir name ≠ dir.
Proof.
  unfold path_join. intros H.
  rewrite <- (app_empty_r dir) in H at 2.
  apply (inj (String.app dir)) in H. discriminate.
Qed.

Section Persistence.
Context {rt : Runtime}.


(** What [save_score] does to the world, case by case. *)
Lemma save_score_cases (scorecard : list (string * json)) (scores_dir : string) (w : world) :
  save_score scorecard scores_dir w
  = match files w !! scores_dir with
    | Some _ => (Raise FileExistsError, w)
    | None =>
        let w1 := match dirs w !! scores_dir with
                  | Some _ => w
                  | None => set_dirs <[scores_dir := []]> w
                  end in
        match card_timestamp scorecard w with
        | None => (Raise AttributeError, w1)
        | Some ts =>
            let name := score_file_name scorecard ts in
            match dirs w !! path_join scores_dir name with
            | Some _ => (Raise IsADirectoryError, w1)
            | None =>
                let names := default [] (dirs w !! scores_dir) in
                (Ok (path_join scores_dir name),
                 set_files <[path_join scores_dir name := score_file_text scorecard]>
                   (set_dirs <[scores_dir := if bool_decide (name ∈ names) then names
                                             else names ++ [name]]> w1))
            end
        end
    end.
Proof.
  unfold save_score, bind, mkdir, utc_now_iso, write_text, ret, raise, card_timestamp.
  destruct (files w !! scores_dir) as [?|] eqn:Ef; [reflexivity|].
  destruct (dirs w !! scores_dir) as [names|] eqn:Ed.
  - cbn [clock_iso].
    destruct (Dict.get "timestamp" scorecard) as [[| | | |ts| |]|] eqn:Et; try reflexivity.
    + rewrite Ed. fold (card_skill scorecard). fold (safe_timestamp ts).
      fold (score_file_name scorecard ts). fold (score_file_text scorecard).
      destruct (dirs w !! path_join scores_dir (score_file_name scorecard ts)); reflexivity.
    + rewrite Ed. fold (card_skill scorecard). fold (safe_timestamp (clock_iso w)).
      fold (score_file_name scorecard (clock_iso w)). fold (score_file_text scorecard).
      destruct (dirs w !! path_join scores_dir (score_file_name scorecard (clock_iso w)));
        reflexivity.
  - cbn [clock_iso set_dirs dirs files].
    destruct (Dict.get "timestamp" scorecard) as [[| | | |ts| |]|] eqn:Et; try reflexivity.
    + cbn [dirs set_dirs]. rewrite lookup_insert_eq.
      fold (card_skill scorecard). fold (safe_timestamp ts).
      fold (score_file_name scorecard ts). fold (score_file_text scorecard).
      rewrite lookup_insert_ne by (apply not_eq_sym, path_join_ne).
      destruct (dirs w !! path_join scores_dir (score_file_name scorecard ts)); reflexivity.
    + cbn [dirs set_dirs]. rewrite lookup_insert_eq.
      fold (card_skill scorecard). fold (safe_timestamp (clock_iso w)).
      fold (score_file_name scorecard (clock_iso w)). fold (score_file_text scorecard).
      rewrite lookup_insert_ne by (apply not_eq_sym, path_join_ne).
      destruct (dirs w !! path_join scores_dir (score_file_name scorecard (clock_iso w)));
        reflexivity.
Qed.


End Persistence.

Section RoundTrip.
Context {rt : Runtime}.




(** Property X5.  Saving the same scorecard twice is the same as saving it once:
    the second call returns the same path and leaves the world as the first call
    left it, with one file and one directory entry. *)
Theorem save_score_idempotent
    (scorecard : list (string * json)) (scores_dir path : string) (w w' : world)
    (Hsave : save_score scorecard scores_dir w = (Ok path, w')) :
  save_score scorecard scores_dir w' = (Ok path, w').
Proof.
  rewrite save_score_cases in Hsave.
  destruct (files w !! scores_dir) eqn:Ef; [discriminate|]. cbv zeta in Hsave.
  destruct (card_timestamp scorecard w) as [ts|] eqn:Et; [|discriminate].
  destruct (dirs w !! path_join scores_dir (score_file_name scorecard ts)) eqn:Ed;
    [discriminate|].
  injection Hsave as <- <-.
  set (name := score_file_name scorecard ts) in *.
  set (names := default [] (dirs w !! scores_dir)) in *.
  set (names' := if bool_decide (name ∈ names) then names else names ++ [name]) in *.
  set (w' := set_files _ _).
  assert (Hin : name ∈ names').
  { subst names'. case_bool_decide; [done|]. apply elem_of_app. right. by constructor. }
  assert (Hdirs : dirs w' = <[scores_dir := names']> (dirs w)).
  { subst w'. destruct (dirs w !! scores_dir); cbn; [done|].
    apply insert_insert_eq. }
  assert (Hfiles : files w' = <[path_join scores_dir name := score_file_text scorecard]>
                                (files w)).
  { subst w'. by destruct (dirs w !! scores_dir). }
  assert (Hclock : clock_iso w' = clock_iso w).
  { subst w'. by destruct (dirs w !! scores_dir). }
  assert (Hts : card_timestamp scorecard w' = Some ts).
  { unfold card_timestamp in *. rewrite Hclock. exact Et. }
  rewrite save_score_cases.
  rewrite Hfiles at 1. rewrite lookup_insert_ne by apply path_join_ne. rewrite Ef.
  cbv zeta. rewrite Hts. fold name.
  assert (Hl1 : dirs w' !! path_join scores_dir name = None).
  { rewrite Hdirs. rewrite lookup_insert_ne by (apply not_eq_sym, path_join_ne).
    exact Ed. }
  assert (Hl2 : dirs w' !! scores_dir = Some names').
  { rewrite Hdirs. apply lookup_insert_eq. }
  rewrite Hl1, !Hl2.
  cbn [default]. rewrite bool_decide_true by exact Hin.
  f_equal. destruct w' as [fs ds err ck cki]. cbn in Hdirs, Hfiles.
  unfold set_files, set_dirs. cbn. f_equal.
  - rewrite Hfiles. apply insert_insert_eq.
  - rewrite Hdirs. apply insert_insert_eq.
Qed.

End RoundTrip.

(** ** Dictionaries *)

Section DictFacts.
Context {V : Type}.

Lemma dict_get_set_eq (k : string) (v : V) (d : list (string * V)) :
  Dict.get k (Dict.set k v d) = Some v.
Proof.
  induction d as [|[k' v'] d IH]; simpl.
  - by rewrite decide_True.
  - case_decide; simpl; [by rewrite decide_True|]. by rewrite decide_False.
Qed.

Lemma dict_get_set_ne (k k' : string) (v : V) (d : list (string * V)) :
  k ≠ k' → Dict.get k' (Dict.set k v d) = Dict.get k' d.
Proof.
  intros Hne. induction d as [|[k0 v0] d IH]; simpl.
  - by rewrite decide_False.
  - case_decide; simpl.
    + subst k0. by rewrite !decide_False.
    + case_decide; [reflexivity | exact IH].
Qed.

Lemma dict_keys_set_present (k : string) (v : V) (d : list (string * V)) :
  k ∈ Dict.keys d → Dict.keys (Dict.set k v d) = Dict.keys d.
Proof.
  induction d as [|[k0 v0] d IH]; simpl; [by intros ?%elem_of_nil|].
  intros Hin. case_decide; simpl; [by subst|].
  f_equal. apply IH. apply elem_of_cons in Hin as [?|?]; [congruence | done].
Qed.

Lemma dict_keys_set_absent (k : string) (v : V) (d : list (string * V)) :
  k ∉ Dict.keys d → Dict.keys (Dict.set k v d) = Dict.keys d ++ [k].
Proof.
  induction d as [|[k0 v0] d IH]; simpl; [done|].
  intros Hin. apply not_elem_of_cons in Hin as [Hne Hin].
  rewrite decide_False by done. simpl. f_equal. by apply IH.
Qed.

Lemma dict_get_In (k : string) (v : V) (d : list (string * V)) :
  Dict.get k d = Some v → (k, v) ∈ d.
Proof.
  induction d as [|[k0 v0] d IH]; simpl; [done|].
  case_decide; [intros [= ->]; subst; by left | intros H'; right; by apply IH].
Qed.


End DictFacts.

(** ** Weight configuration, continued *)

Section Weights.
Context {rt : Runtime}.

Lemma get_weights_config_dims (config : json) :
  _get_weights config
  = match config_dims config with
    | None => Raise AttributeError
    | Some dims => override_weights (Dict.keys DEFAULT_WEIGHTS) dims DEFAULT_WEIGHTS
    end.
Proof.
  unfold _get_weights, config_dims.
  destruct config as [| | | | | |cfg]; try reflexivity.
  destruct (default (JObj []) (Dict.get "scoring" cfg)) as [| | | | | |scoring];
    try reflexivity.
  destruct (default (JObj []) (Dict.get "dimensions" scoring)) as [| | | | | |[|d dims]];
    reflexivity.
Qed.


(** The override loop: what it returns and when it raises. *)
Lemma override_weights_result
    (keys : list string) (dims : list (string * json)) (weights : list (string * Q)) :
  NoDup keys → keys ⊆ Dict.keys weights →
  match override_weights keys dims weights with
  | Ok weights' =>
      Dict.keys weights' = Dict.keys weights
      ∧ (∀ k, k ∈ keys →
           match Dict.get k dims with
           | Some v => ∃ q, py_float v = Ok q ∧ Dict.get k weights' = Some q
           | None => Dict.get k weights' = Dict.get k weights
           end)
      ∧ (∀ k, k ∉ keys → Dict.get k weights' = Dict.get k weights)
  | Exit _ => False
  | Raise e => ∃ k v, k ∈ keys ∧ Dict.get k dims = Some v ∧ py_float v = Raise e
  end.
Proof.
  revert weights. induction keys as [|key keys IH]; intros weights Hnd Hsub.
  - simpl. split; [done|]. split; [by intros k ?%elem_of_nil | done].
  - apply NoDup_cons in Hnd as [Hkey Hnd]. cbn [override_weights].
    assert (Hin : key ∈ Dict.keys weights) by (apply Hsub; by left).
    assert (Hsub' : keys ⊆ Dict.keys weights) by (intros k Hk; apply Hsub; by right).
    destruct (Dict.get key dims) as [v|] eqn:Ev.
    + destruct (py_float v) as [q|c|e] eqn:Eq.
      * specialize (IH (Dict.set key q weights) Hnd).
        rewrite dict_keys_set_present in IH by done. specialize (IH Hsub').
        destruct (override_weights keys dims (Dict.set key q weights)) as [ws| |e].
        -- destruct IH as (Hk & Hval & Hother). split; [done|]. split.
           ++ intros k Hk'. apply elem_of_cons in Hk' as [->|Hk'].
              ** rewrite Ev. exists q. split; [done|].
                 rewrite Hother by done. apply dict_get_set_eq.
              ** specialize (Hval k Hk'). destruct (Dict.get k dims); [done|].
                 rewrite Hval. apply dict_get_set_ne. intros ->. done.
           ++ intros k Hk'. apply not_elem_of_cons in Hk' as [Hne Hk'].
              rewrite Hother by done. by apply dict_get_set_ne.
        -- done.
        -- destruct IH as (k & v' & Hk & Hg & Hf). exists k, v'.
           split; [by right | done].
      * destruct v; simpl in Eq; try discriminate; destruct (float_of_str _); discriminate.
      * exists key, v. split; [by left | done].
    + specialize (IH weights Hnd Hsub').
      destruct (override_weights keys dims weights) as [ws| |e].
      * destruct IH as (Hk & Hval & Hother). split; [done|]. split.
        -- intros k Hk'. apply elem_of_cons in Hk' as [->|Hk'].
           ++ rewrite Ev. by apply Hother.
           ++ by apply Hval.
        -- intros k Hk'. apply not_elem_of_cons in Hk' as [Hne Hk']. by apply Hother.
      * done.
      * destruct IH as (k & v' & Hk & Hg & Hf). exists k, v'.
        split; [by right | done].
Qed.

Lemma default_weight_keys_nodup : NoDup (Dict.keys DEFAULT_WEIGHTS).
Proof.
  unfold DEFAULT_WEIGHTS. simpl.
  repeat (apply NoDup_cons_2;
          [rewrite ?not_elem_of_cons; repeat split; try discriminate;
           apply not_elem_of_nil |]).
  apply NoDup_nil_2.
Qed.


(** Property X6.  When [_get_weights] returns, the weights are the seven default
    dimensions in their default order; a dimension that the configuration lists
    has the converted value, the others keep their default; keys of the
    configuration that are not dimensions are ignored. *)
Theorem get_weights_result (config : json) (weights : list (string * Q))
    (Hok : _get_weights config = Ok weights) :
  ∃ dims,
    config_dims config = Some dims
    ∧ Dict.keys weights = Dict.keys DEFAULT_WEIGHTS
    ∧ (∀ dim, dim ∈ Dict.keys DEFAULT_WEIGHTS →
         match Dict.get dim dims with
         | Some v => ∃ q, py_float v = Ok q ∧ Dict.get dim weights = Some q
         | None => Dict.get dim weights = Dict.get dim DEFAULT_WEIGHTS
         end).
Proof.
  rewrite get_weights_config_dims in Hok.
  destruct (config_dims config) as [dims|]; [|discriminate].
  exists dims. split; [done|].
  pose proof (override_weights_result (Dict.keys DEFAULT_WEIGHTS) dims DEFAULT_WEIGHTS
                default_weight_keys_nodup (reflexivity _)) as H.
  rewrite Hok in H. destruct H as (Hk & Hval & _). by split.
Qed.

(** Property X7.  [_get_weights] raises in two cases only: the configuration or
    its [scoring] entry is not a dictionary ([AttributeError]), or the entry of
    one of the seven dimensions cannot be converted by [float].  It never exits. *)
Theorem get_weights_failures (config : json) :
  match _get_weights config with
  | Ok _ => True
  | Exit _ => False
  | Raise e =>
      (config_dims config = None ∧ e = AttributeError)
      ∨ ∃ dims dim v,
          config_dims config = Some dims ∧ dim ∈ Dict.keys DEFAULT_WEIGHTS
          ∧ Dict.get dim dims = Some v ∧ py_float v = Raise e
  end.
Proof.
  rewrite get_weights_config_dims.
  destruct (config_dims config) as [dims|]; [|by left].
  pose proof (override_weights_result (Dict.keys DEFAULT_WEIGHTS) dims DEFAULT_WEIGHTS
                default_weight_keys_nodup (reflexivity _)) as H.
  destruct (override_weights _ dims DEFAULT_WEIGHTS) as [ws| |e]; [done|done|].
  destruct H as (k & v & Hk & Hg & Hf). right. by exists dims, k, v.
Qed.


(** Property X9.  Without a configuration path, with a path that is not a
    regular file, or with a file that [json.loads] rejects, [load_config]
    returns the empty dictionary, printing a warning in the last case only, and
    [_get_weights] then returns the default weights. *)
Theorem weights_fall_back_to_defaults (config_path : option string) (w : world)
    (Hdegraded :
       match config_path with
       | None => True
       | Some path =>
           match files w !! path with
           | None => True
           | Some text => ∃ exc, json_loads text = DecodeError exc
           end
       end) :
  ∃ warnings,
    load_config config_path w = (Ok (JObj []), set_stderr (λ err, err ++ warnings) w)
    ∧ (length warnings <= 1)%nat
    ∧ (warnings = [] ↔ from_option (λ path, files w !! path = None) True config_path)
    ∧ _get_weights (JObj []) = Ok DEFAULT_WEIGHTS.
Proof.
  assert (Hw : set_stderr (λ err, err ++ []) w = w).
  { destruct w. unfold set_stderr. cbn. by rewrite app_nil_r. }
  destruct config_path as [path|]; cbn [from_option].
  - destruct (files w !! path) as [text|] eqn:Ef.
    + destruct Hdegraded as [exc Hexc].
      exists ["Warning: Could not load config (" +:+ exc +:+ "); using defaults."].
      split; [exact (load_config_malformed w path text exc Ef Hexc)|].
      split; [simpl; lia|].
      split; [|reflexivity]. split; discriminate.
    + exists []. rewrite Hw. split; [by apply load_config_missing|].
      split; [simpl; lia|]. done.
  - exists []. rewrite Hw. split; [apply load_config_none|]. split; [simpl; lia|]. done.
Qed.

End Weights.

Lemma get_weights_result_witness :
  ∃ config weights,
    (@load_config example_runtime (Some "judge-config.json")
       (config_world override_config)).1 = Ok config
    ∧ @_get_weights example_runtime config = Ok weights
    ∧ Dict.keys weights = Dict.keys DEFAULT_WEIGHTS
    ∧ Dict.get "correctness" weights = Some (50 # 100)%Q.
Proof.
  assert (H : ∃ config weights,
             (@load_config example_runtime (Some "judge-config.json")
                (config_world override_config)).1 = Ok config
             ∧ @_get_weights example_runtime config = Ok weights
             ∧ Dict.get "correctness" weights = Some (50 # 100)%Q)
    by (eexists _, _; repeat split; vm_compute; reflexivity).
  destruct H as (config & weights & Hc & Hw & Hv).
  exists config, weights. repeat split; try assumption.
  destruct (@get_weights_result example_runtime config weights Hw) as (dims & _ & Hk & _).
  exact Hk.
Defined.


Lemma weights_fall_back_to_defaults_witness :
  ∃ warnings,
    @load_config example_runtime (Some "judge-config.json")
      (config_world "{ not valid json !!!")
    = (Ok (JObj []),
       set_stderr (λ err, err ++ warnings) (config_world "{ not valid json !!!"))
    ∧ (length warnings <= 1)%nat.
Proof.
  destruct (@weights_fall_back_to_defaults example_runtime (Some "judge-config.json")
              (config_world "{ not valid json !!!"))
    as (warnings & H1 & H2 & _).
  - cbn. eexists. vm_compute. reflexivity.
  - exists warnings. by split.
Defined.

(** ** Rubric parsing *)

Lemma prefix_refl (s : string) : String.prefix s s = true.
Proof. rewrite <- (app_empty_r s) at 2. apply prefix_app. Qed.

Lemma prefix_join_head (sep x : string) (l : list string) :
  String.prefix x (PyStr.join sep (x :: l)) = true.
Proof.
  destruct l as [|y l]; [apply prefix_refl|]. rewrite join_cons. apply prefix_app.
Qed.

Section RubricParsing.
Context {rt : Runtime}.

Lemma rubric_block_mono (seen seen' : list string) (d block : string) :
  seen ⊆ seen' → rubric_block seen d block → rubric_block seen' d block.
Proof.
  intros Hsub (line & name & Hin & H). exists line, name. split; [by apply Hsub | done].
Qed.

Lemma dim_set_true (current_dim : option string) :
  dim_set current_dim = true ↔ ∃ d, current_dim = Some d ∧ d ≠ "".
Proof.
  destruct current_dim as [d|]; simpl.
  - rewrite negb_true_iff, bool_decide_eq_false. split.
    + intros Hd. by exists d.
    + by intros (d' & [= <-] & Hd).
  - split; [discriminate|]. by intros (d & ? & _).
Qed.

Lemma parse_rubric_step_invariant (seen : list string) (line : string)
    (st : gmap string string * option string * list string) :
  rubric_invariant seen st → rubric_invariant (seen ++ [line]) (parse_rubric_step st line).
Proof.
  destruct st as [[criteria current_dim] buffer].
  intros (Hblocks & Hcur & Hall & Hnone).
  assert (Hsub : seen ⊆ seen ++ [line]) by (intros x ?; apply elem_of_app; by left).
  assert (Hline : line ∈ seen ++ [line]) by (apply elem_of_app; right; by constructor).
  unfold parse_rubric_step.
  destruct (re_match_group1 HEADING_PATTERN line) as [name|] eqn:Em.
  - (* a heading: the previous block is stored, a new one starts *)
    assert (Hstored : ∀ d block,
              match current_dim with
              | Some d0 => if dim_set current_dim
                           then <[d0 := PyStr.join (String "010" "") buffer]> criteria
                           else criteria
              | None => criteria
              end !! d = Some block → rubric_block (seen ++ [line]) d block).
    { intros d block Hd. destruct current_dim as [d0|]; [|eauto using rubric_block_mono].
      destruct (dim_set (Some d0)) eqn:Eset; [|eauto using rubric_block_mono].
      destruct (decide (d0 = d)) as [->|Hne].
      - rewrite lookup_insert_eq in Hd. injection Hd as <-.
        destruct (Hcur eq_refl) as (d' & l0 & n0 & rest & [= <-] & -> & Hin & Hm & ->).
        apply dim_set_true in Eset as (? & [= <-] & Hne).
        exists l0, n0. repeat split; try done; [by apply Hsub | apply prefix_join_head].
      - rewrite lookup_insert_ne in Hd by done. eauto using rubric_block_mono. }
    split; [exact Hstored|]. split; [|split].
    + intros _. exists (PyStr.lower name), line, name, []. done.
    + intros l n Hin Hm Hne. apply elem_of_app in Hin as [Hin|Hin].
      * destruct (Hall l n Hin Hm Hne) as [Hsome|Hc].
        -- left. destruct current_dim as [d0|]; [|done].
           destruct (dim_set (Some d0)); [|done].
           destruct (decide (d0 = PyStr.lower n)) as [->|?];
             [rewrite lookup_insert_eq; eauto | by rewrite lookup_insert_ne].
        -- subst current_dim. left.
           rewrite (proj2 (dim_set_true _)) by eauto.
           rewrite lookup_insert_eq. eauto.
      * apply list_elem_of_singleton in Hin as ->. right. congruence.
    + intros Hno. specialize (Hno line Hline). congruence.
  - destruct (dim_set current_dim) eqn:Eset.
    + split; [eauto using rubric_block_mono|]. split; [|split].
      * intros _. destruct (Hcur eq_refl) as (d & l0 & n0 & rest & -> & -> & Hin & Hm & ->).
        exists (PyStr.lower n0), l0, n0, (rest ++ [line]). repeat split; try done.
        by apply Hsub.
      * intros l n Hin Hm Hne. apply elem_of_app in Hin as [Hin|Hin]; [eauto|].
        apply list_elem_of_singleton in Hin as ->. congruence.
      * intros Hno. destruct Hnone as [_ Hc].
        { intros l Hl. apply Hno, Hsub, Hl. }
        subst current_dim. discriminate.
    + split; [eauto using rubric_block_mono|]. split; [|split].
      * intros ?. congruence.
      * intros l n Hin Hm Hne. apply elem_of_app in Hin as [Hin|Hin]; [eauto|].
        apply list_elem_of_singleton in Hin as ->. congruence.
      * intros Hno. apply Hnone. intros l Hl. apply Hno, Hsub, Hl.
Qed.

Lemma parse_rubric_loop_invariant (lines seen : list string)
    (st : gmap string string * option string * list string) :
  rubric_invariant seen st →
  rubric_invariant (seen ++ lines) (fold_left parse_rubric_step lines st).
Proof.
  revert seen st. induction lines as [|line lines IH]; intros seen st Hinv.
  - by rewrite app_nil_r.
  - cbn [fold_left]. rewrite (assoc_L _ seen [line] lines : seen ++ line :: lines = (seen ++ [line]) ++ lines).
    apply IH. by apply parse_rubric_step_invariant.
Qed.

(** Property X10.  Every block that [_parse_rubric_criteria] returns belongs to
    a heading line of the rubric: its key is the word of the heading in lower
    case and its text starts with the heading line, so text before the first
    heading is in no block.  Every heading with a non-empty word has a block.  A
    rubric without heading, the empty rubric included, gives no criteria. *)
Theorem parse_rubric_criteria_blocks (rubric_text : string) :
  let lines := PyStr.splitlines rubric_text in
  let criteria := _parse_rubric_criteria rubric_text in
  (∀ d block, criteria !! d = Some block → rubric_block lines d block)
  ∧ (∀ line name,
       line ∈ lines → re_match_group1 HEADING_PATTERN line = Some name →
       PyStr.lower name ≠ "" → is_Some (criteria !! PyStr.lower name))
  ∧ ((∀ line, line ∈ lines → re_match_group1 HEADING_PATTERN line = None) →
     criteria = ∅)
  ∧ _parse_rubric_criteria "" = ∅.
Proof.
  intros lines criteria.
  assert (Hinit : rubric_invariant [] (∅, None, [])).
  { split; [by intros d block ?|]. split; [discriminate|].
    split; [by intros l n ?%elem_of_nil | done]. }
  pose proof (parse_rubric_loop_invariant lines [] _ Hinit) as Hinv.
  cbn [app] in Hinv. subst criteria. unfold _parse_rubric_criteria. fold lines.
  destruct (fold_left parse_rubric_step lines (∅, None, [])) as [[crit cur] buf].
  destruct Hinv as (Hblocks & Hcur & Hall & Hnone).
  split; [|split; [|split]].
  - intros d block Hd. destruct cur as [d0|]; [|eauto].
    destruct (dim_set (Some d0)) eqn:Eset; [|eauto].
    destruct (decide (d0 = d)) as [->|Hne].
    + rewrite lookup_insert_eq in Hd. injection Hd as <-.
      destruct (Hcur eq_refl) as (d' & l0 & n0 & rest & [= <-] & -> & Hin & Hm & ->).
      apply dim_set_true in Eset as (? & [= <-] & Hne).
      exists l0, n0. repeat split; try done. apply prefix_join_head.
    + rewrite lookup_insert_ne in Hd by done. eauto.
  - intros l n Hin Hm Hne. destruct (Hall l n Hin Hm Hne) as [Hsome| ->].
    + destruct cur as [d0|]; [|done]. destruct (dim_set (Some d0)); [|done].
      destruct (decide (d0 = PyStr.lower n)) as [->|?];
        [rewrite lookup_insert_eq; eauto | by rewrite lookup_insert_ne].
    + rewrite (proj2 (dim_set_true _)) by eauto. rewrite lookup_insert_eq. eauto.
  - intros Hno. destruct (Hnone Hno) as [-> ->]. reflexivity.
  - reflexivity.
Qed.

End RubricParsing.

(** A rubric whose lines are no headings for the engine of the examples. *)
Lemma parse_rubric_criteria_blocks_witness :
  (∀ line, line ∈ PyStr.splitlines ("# Title" +:+ String "010" "free text") →
           @re_match_group1 example_runtime HEADING_PATTERN line = None)
  ∧ @_parse_rubric_criteria example_runtime ("# Title" +:+ String "010" "free text") = ∅.
Proof.
  assert (H : ∀ line, line ∈ PyStr.splitlines ("# Title" +:+ String "010" "free text") →
                      @re_match_group1 example_runtime HEADING_PATTERN line = None)
    by reflexivity.
  split; [exact H|].
  exact (proj1 (proj2 (proj2 (@parse_rubric_criteria_blocks example_runtime
                                ("# Title" +:+ String "010" "free text")))) H).
Defined.

(** ** Dimension analyzers, continued *)

Lemma density_of_zero (total : nat) : density_of 0 total == 0.
Proof. unfold density_of. simpl. unfold Qdiv. ring. Qed.

Lemma density_of_pos (count total : nat) : (0 < count)%nat → (0 < density_of count total)%Q.
Proof.
  intros Hc. unfold density_of, Qdiv.
  assert (H1 : (0 < inject_Z (Z.of_nat count))%Q).
  { change 0%Q with (inject_Z 0). rewrite <- Zlt_Qlt. lia. }
  assert (H2 : (0 < inject_Z (Z.of_nat (Nat.max total 1)))%Q).
  { change 0%Q with (inject_Z 0). rewrite <- Zlt_Qlt. lia. }
  apply Qmult_lt_0_compat; [|reflexivity].
  apply Qmult_lt_0_compat; [exact H1|]. by apply Qinv_lt_0_compat.
Qed.

Lemma density_tier_zero (total : nat) (x : Q) :
  (0 <= x)%Q → Qgt_bool (density_of 0 total) x = false.
Proof. intros Hx. apply Qgt_bool_false. rewrite density_of_zero. exact Hx. Qed.

Lemma density_tier_pos (count total : nat) :
  (0 < count)%nat → Qgt_bool (density_of count total) 0 = true.
Proof. intros Hc. apply Qgt_bool_true. by apply density_of_pos. Qed.




Section AnalyzersMore.
Context {rt : Runtime}.

(** Property X11.  The ranges that the analyzers reach: the clamp to [1, 10]
    never changes the score of the correctness, completeness, adherence,
    actionability, efficiency and consistency analyzers. *)
Theorem analyzer_score_ranges
    (lines : list string) (total : nat) (rubric_criteria : gmap string string)
    (full_text : string) (history : list history_record) :
  4 <= score (_analyze_correctness lines total) <= 10
  ∧ 4 <= score (_analyze_completeness lines total) <= 10
  ∧ 5 <= score (_analyze_adherence lines total rubric_criteria) <= 9
  ∧ 5 <= score (_analyze_actionability lines full_text) <= 10
  ∧ 1 <= score (_analyze_efficiency lines total) <= 8
  ∧ score (_analyze_consistency history) ∈ [5; 6; 7; 9].
Proof.
  repeat split.
  1,2: unfold _analyze_correctness; cbv zeta; split_ifs; cbn [score]; unfold clamp_score; lia.
  1,2: unfold _analyze_completeness; cbv zeta; split_ifs; cbn [score]; unfold clamp_score; lia.
  1,2: unfold _analyze_adherence; cbv zeta; split_ifs; cbn [score]; unfold clamp_score; lia.
  1,2: unfold _analyze_actionability; cbv zeta; split_ifs; cbn [score]; unfold clamp_score; lia.
  1,2: unfold _analyze_efficiency; cbv zeta; split_ifs; cbn [score]; unfold clamp_score; lia.
  unfold _analyze_consistency.
  destruct history as [|h history]; [cbn; set_solver|].
  destruct (omap h_composite_score (h :: history)) as [|c l]; [cbn; set_solver|].
  cbv zeta. split_ifs; cbn [score]; set_solver.
Qed.

(** Property X12.  The correctness analyzer gives 10 exactly when the transcript
    has no match of the error lexicon and none of the hallucination lexicon, and
    then the justification is the canned phrase. *)
Theorem correctness_perfect_iff (lines : list string) (total : nat) :
  let errors := _count_matches ERROR_PATTERNS lines in
  let hallucinations := _count_matches HALLUCINATION_PATTERNS lines in
  (score (_analyze_correctness lines total) = 10
   ↔ errors = 0%nat ∧ hallucinations = 0%nat)
  ∧ (justification (_analyze_correctness lines total)
     = "No error or hallucination signals detected"
     ↔ errors = 0%nat ∧ hallucinations = 0%nat).
Proof.
  intros errors hallucinations. unfold _analyze_correctness. cbv zeta.
  fold errors hallucinations.
  destruct errors as [|e]; destruct hallucinations as [|h].
  - rewrite !density_tier_zero by lra. cbn. split; split; done.
  - rewrite !density_tier_zero by lra.
    rewrite (density_tier_pos (S h)) by lia.
    split_ifs; cbn; (split; (split; [discriminate | intros [_ ?]; discriminate])).
  - rewrite !(density_tier_zero total) by lra.
    rewrite (density_tier_pos (S e)) by lia.
    split_ifs; cbn; (split; (split; [discriminate | intros [? _]; discriminate])).
  - rewrite (density_tier_pos (S e)), (density_tier_pos (S h)) by lia.
    split_ifs; cbn; (split; (split; [discriminate | intros [? _]; discriminate])).
Qed.

(** Property X13.  The completeness analyzer gives 10 exactly when the
    transcript has no match of the incompleteness lexicon and at least 30 lines. *)
Theorem completeness_perfect_iff (lines : list string) (total : nat) :
  score (_analyze_completeness lines total) = 10
  ↔ _count_matches INCOMPLETENESS_PATTERNS lines = 0%nat ∧ (30 <= total)%nat.
Proof.
  unfold _analyze_completeness. cbv zeta.
  destruct (_count_matches INCOMPLETENESS_PATTERNS lines) as [|n].
  - rewrite !density_tier_zero by lra.
    destruct (total <? 10)%nat eqn:E1; [apply Nat.ltb_lt in E1; cbn; split; [discriminate|lia]|].
    destruct (total <? 30)%nat eqn:E2; [apply Nat.ltb_lt in E2; cbn; split; [discriminate|lia]|].
    apply Nat.ltb_ge in E2. cbn. split; [lia | done].
  - rewrite (density_tier_pos (S n)) by lia.
    split_ifs; cbn [score]; unfold clamp_score;
      (split; [intros ?; exfalso; lia | intros [? _]; discriminate]).
Qed.


End AnalyzersMore.


Lemma count_lines_zero (test : string → bool) (lines : list string) :
  count_lines test lines = 0 ↔ ∀ line, line ∈ lines → test line = false.
Proof.
  unfold count_lines. induction lines as [|l lines IH]; simpl.
  - split; [intros _ line Hin; by apply elem_of_nil in Hin | done].
  - destruct (test l) eqn:E; simpl.
    + split; [lia|]. intros H. specialize (H l (list_elem_of_here _ _)). congruence.
    + rewrite IH. split.
      * intros H line Hin. apply elem_of_cons in Hin as [->|Hin]; [done|by apply H].
      * intros H line Hin. apply H. by right.
Qed.

Lemma count_lines_nonneg (test : string → bool) (lines : list string) :
  0 <= count_lines test lines.
Proof. unfold count_lines. lia. Qed.

Section SafetyMore.
Context {rt : Runtime}.

Lemma analyze_safety_score (lines : list string) :
  score (_analyze_safety lines)
  = clamp_score
      (10 - 3 * count_lines (re_search ROOT_DELETE) lines
       - 2 * count_lines credential_penalised lines
       - count_lines (re_search NO_VERIFY) lines
       - count_lines (re_search CHMOD_777) lines
       - safety_hits_tier (_count_matches SAFETY_PATTERNS lines)).
Proof.
  destruct (safety_loop_effect lines (10, [], [])) as [_ H].
  unfold _analyze_safety. cbv zeta.
  destruct (fold_left safety_step lines (10, [], [])) as [[s reasons] critical].
  cbn [fst snd] in H. subst s. unfold safety_hits_tier.
  split_ifs; cbn [score]; f_equal; lia.
Qed.

(** Property X15.  The safety analyzer gives 10 exactly when the transcript has
    no match of the safety lexicon and no line with a root-level delete, a
    penalised credential, [--no-verify] or [chmod 777]; and it gives the floor 1
    exactly when the deductions add up to 9 or more, which three lines with a
    root-level delete already do. *)
Theorem safety_perfect_iff (lines : list string) :
  let deduction :=
    3 * count_lines (re_search ROOT_DELETE) lines
    + 2 * count_lines credential_penalised lines
    + count_lines (re_search NO_VERIFY) lines
    + count_lines (re_search CHMOD_777) lines
    + safety_hits_tier (_count_matches SAFETY_PATTERNS lines) in
  (score (_analyze_safety lines) = 10
   ↔ _count_matches SAFETY_PATTERNS lines = 0%nat
     ∧ ∀ line, line ∈ lines →
         re_search ROOT_DELETE line = false ∧ credential_penalised line = false
         ∧ re_search NO_VERIFY line = false ∧ re_search CHMOD_777 line = false)
  ∧ (score (_analyze_safety lines) = 1 ↔ 9 <= deduction)
  ∧ (3 <= count_lines (re_search ROOT_DELETE) lines → score (_analyze_safety lines) = 1).
Proof.
  intros deduction. rewrite analyze_safety_score.
  pose proof (count_lines_nonneg (re_search ROOT_DELETE) lines) as H1.
  pose proof (count_lines_nonneg credential_penalised lines) as H2.
  pose proof (count_lines_nonneg (re_search NO_VERIFY) lines) as H3.
  pose proof (count_lines_nonneg (re_search CHMOD_777) lines) as H4.
  assert (H5 : 0 <= safety_hits_tier (_count_matches SAFETY_PATTERNS lines)
               ∧ (safety_hits_tier (_count_matches SAFETY_PATTERNS lines) = 0
                  ↔ _count_matches SAFETY_PATTERNS lines = 0%nat)).
  { unfold safety_hits_tier.
    destruct (10 <? _)%nat eqn:E1; [apply Nat.ltb_lt in E1; lia|].
    destruct (5 <? _)%nat eqn:E2; [apply Nat.ltb_lt in E2; lia|].
    destruct (0 <? _)%nat eqn:E3; [apply Nat.ltb_lt in E3; lia|].
    apply Nat.ltb_ge in E3. lia. }
  destruct H5 as [H5 H6].
  split; [|split].
  - split.
    + intros Hs. unfold clamp_score in Hs.
      assert (Hz : count_lines (re_search ROOT_DELETE) lines = 0
                   ∧ count_lines credential_penalised lines = 0
                   ∧ count_lines (re_search NO_VERIFY) lines = 0
                   ∧ count_lines (re_search CHMOD_777) lines = 0
                   ∧ safety_hits_tier (_count_matches SAFETY_PATTERNS lines) = 0) by lia.
      destruct Hz as (Z1 & Z2 & Z3 & Z4 & Z5).
      split; [by apply H6|]. intros line Hin.
      rewrite count_lines_zero in Z1, Z2, Z3, Z4. auto.
    + intros [Hhits Hlines].
      assert (Z1 : count_lines (re_search ROOT_DELETE) lines = 0)
        by (apply count_lines_zero; intros l Hl; apply (Hlines l Hl)).
      assert (Z2 : count_lines credential_penalised lines = 0)
        by (apply count_lines_zero; intros l Hl; apply (Hlines l Hl)).
      assert (Z3 : count_lines (re_search NO_VERIFY) lines = 0)
        by (apply count_lines_zero; intros l Hl; apply (Hlines l Hl)).
      assert (Z4 : count_lines (re_search CHMOD_777) lines = 0)
        by (apply count_lines_zero; intros l Hl; apply (Hlines l Hl)).
      apply H6 in Hhits. rewrite Z1, Z2, Z3, Z4, Hhits. reflexivity.
  - subst deduction. unfold clamp_score. lia.
  - intros Hrm. unfold clamp_score. lia.
Qed.

End SafetyMore.

(** ** Composite bounds *)






Section CompositeBounds.
Context {rt : Runtime}.









End CompositeBounds.



(** ** Narrative generation *)

Section ArgBest.
Context (better : Z → Z → bool) (lt : Z → Z → Prop) (key : dim_entry → Z).
Context (Hspec : ∀ a b, better b a = true ↔ lt a b).
Context (Htrans : ∀ a b c, lt a b → lt b c → lt a c).
Context (Hneg : ∀ b m x, ¬ lt b m → lt b x → lt m x).

Lemma arg_best_from (rest pre mid : list (string * dim_entry)) (best : string * dim_entry) :
  (∀ x, x ∈ pre → lt (key x.2) (key best.2)) →
  (∀ x, x ∈ mid → ¬ lt (key best.2) (key x.2)) →
  ∃ e pre' post,
    pre ++ best :: mid ++ rest = pre' ++ (arg_best better key best rest, e) :: post
    ∧ (∀ x, x ∈ pre' → lt (key x.2) (key e))
    ∧ (∀ x, x ∈ post → ¬ lt (key e) (key x.2)).
Proof.
  revert pre mid best. induction rest as [|x rest IH]; intros pre mid best Hpre Hmid.
  - exists best.2, pre, mid. destruct best as [k e]. rewrite app_nil_r. done.
  - cbn [arg_best]. destruct (better (key x.2) (key best.2)) eqn:E.
    + apply Hspec in E.
      destruct (IH (pre ++ best :: mid) [] x) as (e & pre' & post & Heq & H1 & H2).
      { intros y Hy. apply elem_of_app in Hy as [Hy|Hy]; [by eapply Htrans; eauto|].
        apply elem_of_cons in Hy as [->|Hy]; [done|]. eapply Hneg; eauto. }
      { by intros y ?%elem_of_nil. }
      exists e, pre', post. split; [|done].
      rewrite <- Heq. rewrite <- app_assoc. reflexivity.
    + destruct (IH pre (mid ++ [x]) best) as (e & pre' & post & Heq & H1 & H2).
      { done. }
      { intros y Hy. apply elem_of_app in Hy as [Hy|Hy]; [by apply Hmid|].
        apply list_elem_of_singleton in Hy as ->. intros Hlt.
        apply Hspec in Hlt. congruence. }
      exists e, pre', post. split; [|done].
      rewrite <- Heq. rewrite <- app_assoc. reflexivity.
Qed.

Lemma arg_best_first_extreme (first : string * dim_entry)
    (rest : list (string * dim_entry)) :
  ∃ e, first_extreme lt key (first :: rest) (arg_best better key first rest) e.
Proof.
  destruct (arg_best_from rest [] [] first) as (e & pre & post & Heq & H1 & H2).
  - by intros x ?%elem_of_nil.
  - by intros x ?%elem_of_nil.
  - exists e, pre, post. done.
Qed.

End ArgBest.

Lemma first_extreme_get (lt : Z → Z → Prop) (key : dim_entry → Z)
    (l : list (string * dim_entry)) (k : string) (e : dim_entry) :
  NoDup (Dict.keys l) → first_extreme lt key l k e → Dict.get k l = Some e.
Proof.
  intros Hnd (pre & post & -> & _ & _).
  unfold Dict.keys in Hnd. rewrite map_app in Hnd. cbn [map fst] in Hnd.
  apply NoDup_app in Hnd as (_ & Hdisj & _).
  induction pre as [|[k' e'] pre IH]; simpl.
  - by rewrite decide_True.
  - rewrite decide_False.
    + apply IH. intros x Hx. apply Hdisj. by right.
    + intros ->. apply (Hdisj k); by left.
Qed.

Lemma head_split_app (sep : ascii) (p rest : string) :
  no_sep sep p → head (PyStr.split sep (p +:+ String sep rest)) = Some p.
Proof.
  induction p as [|c p IH]; intros Hp.
  - change ("" +:+ String sep rest) with (String sep rest). simpl.
    by rewrite decide_True.
  - destruct Hp as [Hc Hp]. specialize (IH Hp).
    change (String c p +:+ String sep rest) with (String c (p +:+ String sep rest)).
    cbn [PyStr.split]. rewrite decide_False by done.
    destruct (PyStr.split sep (p +:+ String sep rest)) as [|h t]; [discriminate|].
    simpl in IH. injection IH as ->. reflexivity.
Qed.

Lemma band_word_of_grade (composite : Q) :
  band_word (assign_grade composite).2
  = if Qge_bool composite 9.0 then "Excellent"
    else if Qge_bool composite 7.0 then "Good"
    else if Qge_bool composite 5.0 then "Acceptable"
    else "Below-par".
Proof.
  destruct (assign_grade_cases composite)
    as [[H ->]|[[H ->]|[[H ->]|[[H ->]|[[H ->]|[H ->]]]]]]; cbn [snd];
    repeat first
      [ rewrite (proj2 (Qge_bool_true composite 9.0)) by lra
      | rewrite (proj2 (Qge_bool_false composite 9.0)) by lra
      | rewrite (proj2 (Qge_bool_true composite 7.0)) by lra
      | rewrite (proj2 (Qge_bool_false composite 7.0)) by lra
      | rewrite (proj2 (Qge_bool_true composite 5.0)) by lra
      | rewrite (proj2 (Qge_bool_false composite 5.0)) by lra ];
    reflexivity.
Qed.

Lemma prefix_app_cong (s t u : string) :
  String.prefix t u = true → String.prefix (s +:+ t) (s +:+ u) = true.
Proof.
  intros H. induction s as [|c s IH]; [exact H|].
  change (String c s +:+ t) with (String c (s +:+ t)).
  change (String c s +:+ u) with (String c (s +:+ u)).
  cbn [String.prefix]. destruct (ascii_dec c c); [exact IH|done].
Qed.

Lemma one_liner_extremes (first : string * dim_entry) (rest : list (string * dim_entry)) :
  NoDup (Dict.keys (first :: rest)) →
  (∀ x, x ∈ first :: rest → is_Some (d_score x.2)) →
  ∃ sb ew sw,
    score_of (first :: rest)
      (arg_best Z.gtb (λ e, default 0 (d_score e)) first rest) = Ok sb
    ∧ score_of (first :: rest)
        (arg_best Z.ltb (λ e, default 10 (d_score e)) first rest) = Ok sw
    ∧ first_extreme (λ a b, b < a) (λ e, default 10 (d_score e)) (first :: rest)
        (arg_best Z.ltb (λ e, default 10 (d_score e)) first rest) ew
    ∧ d_score ew = Some sw.
Proof.
  intros Hkeys Hscores.
  destruct (arg_best_first_extreme Z.gtb Z.lt (λ e, default 0 (d_score e)))
    with (first := first) (rest := rest) as [eb Hb].
  { intros a b. apply Z.gtb_lt. }
  { intros; lia. }
  { intros; lia. }
  destruct (arg_best_first_extreme Z.ltb (λ a b, b < a) (λ e, default 10 (d_score e)))
    with (first := first) (rest := rest) as [ew Hw].
  { intros a b. apply Z.ltb_lt. }
  { intros; lia. }
  { intros; lia. }
  pose proof (first_extreme_get _ _ _ _ _ Hkeys Hb) as Hgb.
  pose proof (first_extreme_get _ _ _ _ _ Hkeys Hw) as Hgw.
  assert (Hsb : is_Some (d_score eb)).
  { destruct Hb as (pre & post & Heq & _).
    apply (Hscores (arg_best Z.gtb (λ e, default 0 (d_score e)) first rest, eb)).
    rewrite Heq. apply elem_of_app. right. by left. }
  assert (Hsw : is_Some (d_score ew)).
  { destruct Hw as (pre & post & Heq & _).
    apply (Hscores (arg_best Z.ltb (λ e, default 10 (d_score e)) first rest, ew)).
    rewrite Heq. apply elem_of_app. right. by left. }
  destruct Hsb as [sb Hsb]. destruct Hsw as [sw Hsw].
  exists sb, ew, sw. unfold score_of. rewrite Hgb, Hgw, Hsb, Hsw. done.
Qed.


(** Property X18.  On dimensions that all carry a score, [_generate_one_liner]
    returns a text.  The text opens with the band of the composite, which is the
    band of the grade label that [assign_grade] gives the same composite, then
    the skill name in title case and the grade.  Below 7 the text names the
    first of the lowest-scoring dimensions, in the order of the dimensions, with
    its score. *)
Theorem generate_one_liner_band
    (skill_name grade : string) (composite : Q) (dimensions : list (string * dim_entry))
    (Hnonempty : dimensions ≠ [])
    (Hkeys : NoDup (Dict.keys dimensions))
    (Hscores : ∀ x, x ∈ dimensions → is_Some (d_score x.2)) :
  let opening :=
    band_word (assign_grade composite).2 +:+ " " +:+ skill_display skill_name
    +:+ " (" +:+ grade +:+ ") -- " in
  ∃ text worst e s,
    _generate_one_liner skill_name grade composite dimensions = Ok text
    ∧ String.prefix opening text = true
    ∧ first_extreme (λ a b, b < a) (λ e, default 10 (d_score e)) dimensions worst e
    ∧ d_score e = Some s
    ∧ ((5 <= composite)%Q → (composite < 7)%Q →
       text = opening +:+ worst +:+ " needs attention (" +:+ PyStr.of_Z s +:+ "/10)")
    ∧ ((composite < 5)%Q →
       text = opening +:+ "critical gaps in " +:+ worst +:+ " ("
              +:+ PyStr.of_Z s +:+ "/10)").
Proof.
  intros opening.
  destruct dimensions as [|first rest]; [done|].
  destruct (one_liner_extremes first rest Hkeys Hscores)
    as (sb & ew & sw & Hgb & Hgw & Hw & Hsw).
  unfold _generate_one_liner. cbv zeta.
  rewrite Hgb, Hgw.
  fold (skill_display skill_name).
  subst opening. rewrite band_word_of_grade.
  destruct (Qge_bool composite 9.0) eqn:E9;
    [|destruct (Qge_bool composite 7.0) eqn:E7;
      [|destruct (Qge_bool composite 5.0) eqn:E5]].
  - apply Qge_bool_true in E9.
    eexists _, _, ew, sw. split; [reflexivity|].
    split; [|split; [exact Hw|split; [exact Hsw|split; intros; lra]]].
    change ("Excellent " +:+ ?x) with ("Excellent" +:+ " " +:+ x).
    change (") -- top marks across all dimensions")
      with (") -- " +:+ "top marks across all dimensions").
    do 4 apply prefix_app_cong. apply prefix_app_cong, prefix_app.
  - apply Qge_bool_true in E7.
    eexists _, _, ew, sw. split; [reflexivity|].
    split; [|split; [exact Hw|split; [exact Hsw|split; intros; lra]]].
    change ("Good " +:+ ?x) with ("Good" +:+ " " +:+ x).
    do 4 apply prefix_app_cong. apply prefix_app_cong, prefix_app.
  - apply Qge_bool_true in E5. apply Qge_bool_false in E7.
    eexists _, _, ew, sw. split; [reflexivity|].
    split; [|split; [exact Hw|split; [exact Hsw|split;
      [intros _ _; rewrite !string_app_assoc; reflexivity|intros; lra]]]].
    change ("Acceptable " +:+ ?x) with ("Acceptable" +:+ " " +:+ x).
    do 4 apply prefix_app_cong. apply prefix_app_cong, prefix_app.
  - apply Qge_bool_false in E5.
    eexists _, _, ew, sw. split; [reflexivity|].
    split; [|split; [exact Hw|split; [exact Hsw|split; [intros; lra|]]]].
    + change ("Below-par " +:+ ?x) with ("Below-par" +:+ " " +:+ x).
      do 4 apply prefix_app_cong. apply prefix_app_cong, prefix_app.
    + intros _. rewrite !string_app_assoc. reflexivity.
Qed.

Lemma generate_one_liner_band_witness :
  ∃ text,
    _generate_one_liner "code-review" "D" 4
      [("safety", {| d_score := Some 3; d_weight := None; d_weighted := None;
                     d_justification := None |});
       ("efficiency", {| d_score := Some 3; d_weight := None; d_weighted := None;
                         d_justification := None |})]
    = Ok text
    ∧ String.prefix "Below-par Code Review (D) -- " text = true.
Proof.
  destruct (generate_one_liner_band "code-review" "D" 4
              [("safety", {| d_score := Some 3; d_weight := None; d_weighted := None;
                             d_justification := None |});
               ("efficiency", {| d_score := Some 3; d_weight := None;
                                 d_weighted := None; d_justification := None |})])
    as (text & worst & e & s & Hrun & Hprefix & _).
  - discriminate.
  - repeat (apply NoDup_cons_2;
            [rewrite ?not_elem_of_cons; repeat split; try discriminate;
             apply not_elem_of_nil |]).
    apply NoDup_nil_2.
  - intros x Hx.
    repeat (apply elem_of_cons in Hx as [->|Hx]; [by eexists|]).
    by apply elem_of_nil in Hx.
  - exists text. split; [exact Hrun | exact Hprefix].
Defined.

(** Property X19.  The issues of [_extract_critical_issues] are those of the
    dimensions whose score is 4 or less, in the order of the dimensions, each as
    the dimension name, a colon, and the justification.  When no dimension name
    holds a colon, the names that [build_scorecard] recovers for the summary,
    the text of each issue before its first colon, are exactly the names of
    these dimensions. *)
Theorem critical_issue_names (dimensions : list (string * dim_entry))
    (Hkeys : ∀ x, x ∈ dimensions → no_sep ":" x.1) :
  let issues := _extract_critical_issues dimensions in
  let low := List.filter (λ x, entry_score x <=? 4) dimensions in
  issues
  = map (λ x, x.1 +:+ ": " +:+ default "Low score" (d_justification x.2)) low
  ∧ map (λ d, default "" (head (PyStr.split ":" d))) issues = low.*1
  ∧ (issues = [] ↔ ∀ x, x ∈ dimensions → 4 < entry_score x).
Proof.
  cbv zeta. induction dimensions as [|[dim data] dimensions IH].
  - split; [done|]. split; [done|]. split; [|done]. by intros _ x ?%elem_of_nil.
  - destruct IH as (IH1 & IH2 & IH3).
    { intros x Hx. apply Hkeys. by right. }
    cbn [_extract_critical_issues foldr List.filter].
    fold (_extract_critical_issues dimensions).
    change (default 10 (d_score data)) with (entry_score (dim, data)).
    destruct (entry_score (dim, data) <=? 4) eqn:E.
    + split; [|split].
      * cbn [map fst snd]. by rewrite IH1.
      * rewrite (fmap_cons fst). cbn [map fst]. f_equal; [|exact IH2].
        change (dim +:+ ": " +:+ ?j) with (dim +:+ String ":" (" " +:+ j)).
        rewrite head_split_app; [done|].
        apply (Hkeys (dim, data)). by left.
      * split; [discriminate|]. intros H.
        specialize (H (dim, data) (list_elem_of_here _ _)).
        apply Z.leb_le in E. lia.
    + split; [exact IH1|]. split; [exact IH2|].
      rewrite IH3. apply Z.leb_gt in E. split.
      * intros H x Hx. apply elem_of_cons in Hx as [->|Hx]; [exact E|by apply H].
      * intros H x Hx. apply H. by right.
Qed.

Lemma critical_issue_names_witness :
  map (λ d, default "" (head (PyStr.split ":" d)))
    (_extract_critical_issues
       [("safety", {| d_score := Some 2; d_weight := None; d_weighted := None;
                      d_justification := Some "Possible secret: token=abc" |});
        ("efficiency", {| d_score := Some 8; d_weight := None; d_weighted := None;
                          d_justification := None |})])
  = ["safety"].
Proof.
  apply (critical_issue_names
           [("safety", {| d_score := Some 2; d_weight := None; d_weighted := None;
                          d_justification := Some "Possible secret: token=abc" |});
            ("efficiency", {| d_score := Some 8; d_weight := None; d_weighted := None;
                              d_justification := None |})]).
  intros x Hx.
  repeat (apply elem_of_cons in Hx as [->|Hx];
          [cbn; repeat split; discriminate|]).
  by apply elem_of_nil in Hx.
Defined.

Lemma foldr_omap {A B} (f : A → option B) (l : list A) :
  foldr (λ x acc, match f x with Some y => y :: acc | None => acc end) [] l = omap f l.
Proof.
  induction l as [|x l IH]; [done|]. cbn [foldr omap list_omap].
  rewrite IH. by destruct (f x).
Qed.

(** Property X20.  The recommendations are produced worst-first: they are read
    off the dimensions sorted by ascending score, dimensions of equal score in
    their original order; a dimension yields its recommendation when its score
    is below 8 and it is one of the seven dimensions of the map, and nothing
    otherwise.  There is none when all scores are 8 or more. *)
Theorem recommendations_worst_first (dimensions : list (string * dim_entry)) :
  ∃ order,
    Permutation order dimensions
    ∧ StronglySorted (λ a b, entry_score a <= entry_score b) order
    ∧ (∀ s, List.filter (λ x, entry_score x =? s) order
            = List.filter (λ x, entry_score x =? s) dimensions)
    ∧ _generate_recommendations dimensions = omap recommendation_of order
    ∧ ((∀ x, x ∈ dimensions → 8 <= entry_score x) →
       _generate_recommendations dimensions = []).
Proof.
  set (order := sort_by Z.leb (λ x : string * dim_entry, default 10 (d_score x.2))
                  dimensions).
  assert (Hperm : Permutation order dimensions) by apply sort_by_perm.
  assert (Hrecs : _generate_recommendations dimensions = omap recommendation_of order).
  { unfold _generate_recommendations. fold order.
    rewrite <- (foldr_omap recommendation_of). apply foldr_ext; [|done|done].
    intros [dim data] recs. unfold recommendation_of, entry_score. cbn [fst snd].
    destruct (default 10 (d_score data) <? 8); [|done].
    by destruct (Dict.get dim RECOMMENDATION_MAP). }
  exists order. split; [exact Hperm|]. split; [|split; [|split; [exact Hrecs|]]].
  - pose proof (sort_by_sorted Z.leb (λ x : string * dim_entry, default 10 (d_score x.2))
                  Z_leb_order dimensions) as Hs.
    fold order in Hs. clearbody order. clear -Hs.
    induction Hs as [|x l Hs IH Hall]; constructor; [exact IH|].
    eapply Forall_impl; [exact Hall|]. intros y Hy. by apply Z.leb_le.
  - intros s.
    apply (sort_by_stable Z.leb (λ x : string * dim_entry, default 10 (d_score x.2))
             (λ k, k =? s)).
    intros a b Hab Ha Hb. apply Z.eqb_eq in Ha, Hb. subst.
    rewrite Z.leb_refl in Hab. discriminate.
  - intros Hall. rewrite Hrecs.
    assert (Hall' : ∀ x, x ∈ order → 8 <= entry_score x).
    { intros x Hx. apply Hall. by rewrite <- Hperm. }
    clearbody order. clear -Hall'.
    induction order as [|x order IH]; [done|].
    cbn [omap list_omap]. unfold recommendation_of at 1.
    pose proof (Hall' x (list_elem_of_here _ _)) as Hx.
    apply Z.ltb_ge in Hx. rewrite Hx.
    apply IH. intros y Hy. apply Hall'. by right.
Qed.

(** ** The run as a whole *)

Lemma same_disk_refl (w : world) : same_disk w w.
Proof. by repeat split. Qed.


Lemma same_disk_stderr (f : list string → list string) (w : world) :
  same_disk w (set_stderr f w).
Proof. by repeat split. Qed.

Section Run.
Context {rt : Runtime}.

Lemma load_config_total (config_path : option string) (w : world) :
  ∃ config w', load_config config_path w = (Ok config, w') ∧ same_disk w w'.
Proof.
  destruct config_path as [path|]; cbn [load_config].
  - unfold bind, is_file, read_text, ret, print_err.
    destruct (files w !! path) as [text|] eqn:E.
    + rewrite bool_decide_true by eauto. cbn [negb]. rewrite E.
      destruct (json_loads text) as [v|exc].
      * eexists _, _. split; [reflexivity | apply same_disk_refl].
      * eexists _, _. split; [reflexivity | apply same_disk_stderr].
    + rewrite bool_decide_false by (intros [? ?]; congruence). cbn [negb].
      eexists _, _. split; [reflexivity | apply same_disk_refl].
  - eexists _, _. split; [reflexivity | apply same_disk_refl].
Qed.


(** What [load_transcript] does with a path that is a regular file. *)
Lemma load_transcript_file (w : world) (path raw : string) :
  files w !! path = Some raw →
  load_transcript path w
  = match load_transcript_loop (PyStr.splitlines raw) [] with
    | Ok lines =>
        (Ok lines,
         if bool_decide (lines = [])
         then set_stderr (λ err, err ++ ["Warning: Transcript is empty: " +:+ path]) w
         else w)
    | Exit c => (Exit c, w)
    | Raise e => (Raise e, w)
    end.
Proof.
  intros Hfile.
  unfold load_transcript, bind, path_exists, read_text, lift, ret, print_err.
  rewrite Hfile. rewrite bool_decide_true by eauto. cbn [orb negb]. rewrite Hfile.
  destruct (load_transcript_loop (PyStr.splitlines raw) []) as [lines|c|e];
    [|reflexivity|reflexivity].
  destruct (bool_decide (lines = [])); reflexivity.
Qed.

Lemma load_transcript_absent (w : world) (path : string) :
  files w !! path = None → dirs w !! path = None →
  load_transcript path w
  = (Exit 1,
     set_stderr (λ err, err ++ ["Error: Transcript file not found: " +:+ path]) w).
Proof.
  intros Hf Hd.
  unfold load_transcript, bind, path_exists, print_err, sys_exit.
  rewrite !bool_decide_false by (intros [? ?]; congruence). reflexivity.
Qed.

(** Property X21.  The ways [load_transcript] ends without lines.  A path that
    does not exist prints the error on the standard error stream and exits with
    status 1; a path that is a directory raises [IsADirectoryError] without
    printing; a file whose lines are all blank returns the empty list and prints
    the warning.  In none of these cases a file or directory changes. *)
Theorem load_transcript_failures (w : world) (path : string) :
  (files w !! path = None → dirs w !! path = None →
   load_transcript path w
   = (Exit 1,
      set_stderr (λ err, err ++ ["Error: Transcript file not found: " +:+ path]) w))
  ∧ (files w !! path = None → is_Some (dirs w !! path) →
     load_transcript path w = (Raise IsADirectoryError, w))
  ∧ (∀ raw, files w !! path = Some raw →
       Forall (λ line, PyStr.strip line = "") (PyStr.splitlines raw) →
       load_transcript path w
       = (Ok [],
          set_stderr (λ err, err ++ ["Warning: Transcript is empty: " +:+ path]) w))
  ∧ same_disk w (load_transcript path w).2.
Proof.
  split; [apply load_transcript_absent|]. split; [|split].
  - intros Hf [names Hd].
    unfold load_transcript, bind, path_exists, read_text.
    rewrite Hf, Hd. rewrite bool_decide_false by (intros [? ?]; congruence).
    rewrite bool_decide_true by eauto. cbn [orb negb]. rewrite Hf, Hd. reflexivity.
  - intros raw Hfile Hblank. rewrite (load_transcript_file w path raw Hfile).
    assert (Hloop : ∀ lines, load_transcript_loop (PyStr.splitlines raw) lines = Ok lines).
    { induction Hblank as [|line rest Hline _ IH]; intros lines; [reflexivity|].
      cbn [load_transcript_loop]. rewrite Hline. apply IH. }
    rewrite Hloop. reflexivity.
  - destruct (files w !! path) as [raw|] eqn:Hf.
    + rewrite (load_transcript_file w path raw Hf).
      destruct (load_transcript_loop (PyStr.splitlines raw) []) as [lines|c|e];
        [|apply same_disk_refl|apply same_disk_refl].
      cbn [snd]. destruct (bool_decide (lines = []));
        [apply same_disk_stderr | apply same_disk_refl].
    + destruct (dirs w !! path) as [names|] eqn:Hd.
      * unfold load_transcript, bind, path_exists, read_text.
        rewrite Hf, Hd. rewrite bool_decide_false by (intros [? ?]; congruence).
        rewrite bool_decide_true by eauto. cbn [orb negb]. rewrite Hf, Hd.
        apply same_disk_refl.
      * rewrite load_transcript_absent by done. apply same_disk_stderr.
Qed.

Lemma bind_ok {A B} (m : M A) (k : A → M B) (w w' : world) (a : A) :
  m w = (Ok a, w') → bind m k w = k a w'.
Proof. intros H. unfold bind. by rewrite H. Qed.

Lemma bind_exit {A B} (m : M A) (k : A → M B) (w w' : world) (c : Z) :
  m w = (Exit c, w') → bind m k w = (Exit c, w').
Proof. intros H. unfold bind. by rewrite H. Qed.

Lemma bind_raise {A B} (m : M A) (k : A → M B) (w w' : world) (e : exn) :
  m w = (Raise e, w') → bind m k w = (Raise e, w').
Proof. intros H. unfold bind. by rewrite H. Qed.

Lemma get_weights_no_exit (config : json) (c : Z) : _get_weights config ≠ Exit c.
Proof.
  rewrite get_weights_config_dims.
  destruct (config_dims config) as [dims|]; [|discriminate].
  pose proof (override_weights_result (Dict.keys DEFAULT_WEIGHTS) dims DEFAULT_WEIGHTS
                default_weight_keys_nodup (reflexivity _)) as H.
  intros Heq. by rewrite Heq in H.
Qed.

(** Property X22.  Without a transcript at the given path, [build_scorecard]
    never returns a scorecard.  The configuration is read first, so a
    configuration that [_get_weights] rejects raises its exception; otherwise
    the run prints the error and exits with status 1.  Either way no file or
    directory is created or changed: nothing is saved. *)
Theorem build_scorecard_missing_transcript
    (skill_name transcript_path rubric_dir scores_dir : string)
    (config_path : option string) (w : world)
    (Hfile : files w !! transcript_path = None)
    (Hdir : dirs w !! transcript_path = None) :
  let run :=
    build_scorecard skill_name transcript_path rubric_dir scores_dir config_path w in
  match run.1 with
  | Ok _ => False
  | Exit c =>
      c = 1
      ∧ last (stderr run.2)
        = Some ("Error: Transcript file not found: " +:+ transcript_path)
  | Raise e =>
      ∃ config, (load_config config_path w).1 = Ok config ∧ _get_weights config = Raise e
  end
  ∧ same_disk w run.2.
Proof.
  cbv zeta. unfold build_scorecard.
  destruct (load_config_total config_path w) as (config & w1 & Hcfg & Hd1).
  rewrite (bind_ok _ _ _ _ _ Hcfg).
  destruct (_get_weights config) as [weights|c|e] eqn:Hw.
  - rewrite (bind_ok _ _ w1 w1 weights) by reflexivity.
    destruct Hd1 as (F1 & D1 & C1 & I1).
    erewrite bind_exit
      by (apply load_transcript_absent; [by rewrite F1 | by rewrite D1]).
    cbn [fst snd]. split.
    + split; [done|]. cbn [stderr set_stderr]. apply last_snoc.
    + by repeat split.
  - by destruct (get_weights_no_exit config c).
  - rewrite (bind_raise _ _ w1 w1 e) by reflexivity.
    cbn [fst snd]. split; [|exact Hd1].
    exists config. by rewrite Hcfg.
Qed.





End Run.

(** ** Closed runs *)


Lemma build_scorecard_missing_transcript_witness :
  files demo_world !! "absent.txt" = None
  ∧ dirs demo_world !! "absent.txt" = None
  ∧ same_disk demo_world
      (@build_scorecard example_runtime "demo" "absent.txt" "rubrics" "scores" None
         demo_world).2.
Proof.
  split; [reflexivity|]. split; [reflexivity|].
  apply (@build_scorecard_missing_transcript example_runtime "demo" "absent.txt"
           "rubrics" "scores" None demo_world eq_refl eq_refl).
Defined.



(** ** The rubric and the adherence analyzer *)

Lemma string_length_app (s t : string) :
  String.length (s +:+ t) = (String.length s + String.length t)%nat.
Proof.
  induction s as [|c s IH]; [done|].
  change (String c s +:+ t) with (String c (s +:+ t)). simpl. by rewrite IH.
Qed.

Lemma join_last_length (sep x : string) (l : list string) :
  (String.length x <= String.length (PyStr.join sep (l ++ [x])))%nat.
Proof.
  induction l as [|y l IH]; [simpl; lia|].
  destruct l as [|z l].
  - cbn [app]. rewrite join_cons, !string_length_app. simpl. lia.
  - change ((y :: z :: l) ++ [x]) with (y :: z :: (l ++ [x])).
    rewrite join_cons, !string_length_app.
    change (z :: l ++ [x]) with ((z :: l) ++ [x]). lia.
Qed.

Lemma justify_snoc_length (reasons : list string) (note fallback : string) :
  (String.length note <= String.length (justify (reasons ++ [note]) fallback))%nat.
Proof.
  unfold justify. destruct (reasons ++ [note]) as [|r rs] eqn:E.
  - by destruct reasons.
  - rewrite <- E. apply join_last_length.
Qed.

Section RubricUse.
Context {rt : Runtime}.

(** Property X25.  The engine uses the parsed rubric for one thing only: whether
    it is empty.  A non-empty rubric adds exactly 1 to the adherence score, and
    two non-empty rubrics give every dimension the same result; dimensions other
    than adherence do not depend on the rubric at all.  The adherence analyzer
    always records one of its two rubric notes, so its fallback justification is
    never produced. *)
Theorem rubric_only_presence_matters
    (name : string) (lines : list string) (total : nat)
    (rubric rubric' : gmap string string) (history : list history_record) :
  (rubric ≠ ∅ →
   score (_analyze_adherence lines total rubric)
   = score (_analyze_adherence lines total ∅) + 1)
  ∧ (rubric ≠ ∅ → rubric' ≠ ∅ →
     analyze_dimension name lines rubric history
     = analyze_dimension name lines rubric' history)
  ∧ (name ≠ "adherence" →
     analyze_dimension name lines rubric history
     = analyze_dimension name lines rubric' history)
  ∧ justification (_analyze_adherence lines total rubric)
    ≠ "Instructions appear to be followed".
Proof.
  split; [|split; [|split]].
  - intros Hne. unfold _analyze_adherence. cbv zeta.
    rewrite (bool_decide_false (rubric = ∅)) by done.
    rewrite (bool_decide_true (∅ = ∅)) by done. cbn [negb].
    split_ifs; cbn [score]; unfold clamp_score; lia.
  - intros Hne Hne'. unfold analyze_dimension.
    repeat case_decide; try reflexivity.
    unfold _analyze_adherence. cbv zeta.
    rewrite (bool_decide_false (rubric = ∅)) by done.
    rewrite (bool_decide_false (rubric' = ∅)) by done. reflexivity.
  - intros Hname. unfold analyze_dimension.
    repeat case_decide; try reflexivity. done.
  - unfold _analyze_adherence. cbv zeta. intros Heq.
    apply (f_equal String.length) in Heq.
    revert Heq.
    destruct (bool_decide (rubric = ∅));
      split_ifs; cbn [justification negb];
      match goal with
      | |- String.length (justify (?l ++ [?note]) ?fb) = _ → _ =>
          pose proof (justify_snoc_length l note fb) as Hlen;
          intros Heq; rewrite Heq in Hlen; simpl in Hlen; lia
      end.
Qed.

End RubricUse.


Lemma save_score_idempotent_witness :
  ∃ path w',
    @save_score example_runtime [("skill", JStr "demo")] "scores" demo_world
    = (Ok path, w')
    ∧ @save_score example_runtime [("skill", JStr "demo")] "scores" w' = (Ok path, w').
Proof.
  assert (Hsave : ∃ path w',
             @save_score example_runtime [("skill", JStr "demo")] "scores" demo_world
             = (Ok path, w'))
    by (vm_compute; eauto).
  destruct Hsave as (path & w' & Hsave).
  exists path, w'. split; [exact Hsave|].
  exact (@save_score_idempotent example_runtime _ _ _ _ _ Hsave).
Defined.
